(** * whisper-writer: the keyboard input simulator

    A shallow embedding of [src/input_simulation.py] (class [InputSimulator]
    and [run_command_or_exit_on_failure]) and the properties its
    specification states about it.

    The Python code talks to five collaborators that live outside the file:
    the configuration manager, the pynput key-event emitter, the pyperclip
    clipboard, child processes ([subprocess], [os.kill]) and [time.sleep].
    Their calls are recorded as events of a trace, in program order; what
    they answer (a clipboard error, a missing binary, an exit status) is
    read from an [environment].  Python exceptions are the [Raise] results
    of a state-and-error monad whose state is the simulator object together
    with the outside world.

    Seconds are rationals: the finite values a Python [float] or [int]
    denotes.  The rounding of the binary product [interval * 1000] is not
    modelled; the text Python prints for a number is a field of the
    environment. *)

From Stdlib Require Import List String Ascii Bool Arith ZArith QArith Lia.
From Stdlib Require Import DecimalString.
Import ListNotations.

Local Open Scope string_scope.
Local Open Scope list_scope.

(** ** Data *)

(** [pynput.keyboard.Key.cmd], [Key.ctrl], and the one-character strings
    that [Controller.press] accepts. *)
Inductive Key : Type :=
| KeyChar (c : ascii)
| Key_cmd
| Key_ctrl.

(** One call into a collaborator. *)
Inductive event : Type :=
| ConsolePrint (msg : string)              (* ConfigManager.console_print(msg) *)
| Print (msg : string)                     (* print(msg) *)
| NewController                            (* PynputController() *)
| Press (k : Key)                          (* keyboard.press(k) *)
| Release (k : Key)                        (* keyboard.release(k) *)
| Sleep (secs : Q)                         (* time.sleep(secs), completed *)
| ClipPaste                                (* pyperclip.paste() *)
| ClipCopy (text : string)                 (* pyperclip.copy(text) *)
| Spawn (cmd : string) (pid : nat)         (* subprocess.Popen(cmd, stdin=PIPE, text=True) *)
| Run (argv : list string)                 (* subprocess.run(argv, check=True) *)
| PipeWrite (pid : nat) (data : string)    (* process.stdin.write(data) *)
| PipeFlush (pid : nat)                    (* process.stdin.flush() *)
| Kill (pid : nat).                        (* os.kill(pid, signal.SIGINT) *)

(** The exceptions the code raises, catches or lets through. *)
Inductive exn : Type :=
| PyperclipException (msg : string)
| CalledProcessError (argv : list string) (returncode : Z)
| FileNotFoundError (file : string)
| ValueError
| AssertionError
| SystemExit (code : Z).

Inductive result (A : Type) : Type :=
| Ok (a : A)
| Raise (e : exn).
Arguments Ok {A} a.
Arguments Raise {A} e.

(** [PynputController()] and [subprocess.Popen] objects. *)
Inductive PynputController : Type := Controller.

Record Popen : Type := mkPopen {
  pid : nat;
  stdin : bool          (* true: a pipe, false: None *)
}.

(** The instance attributes set by [__init__]. *)
Record InputSimulator : Type := mkSim {
  input_method : string;
  dotool_process : option Popen;
  keyboard : option PynputController
}.

(** What the collaborators answer. *)
Record environment : Type := mkEnv {
  config_input_method : string;              (* post_processing.input_method *)
  config_writing_key_press_delay : option Q; (* post_processing.writing_key_press_delay *)
  sys_platform : string;                     (* sys.platform *)
  pyperclip_imported : bool;                 (* false: the module global pyperclip is None *)
  paste_error : option string;               (* pyperclip.paste() raises PyperclipException *)
  copy_error : string -> option string;      (* pyperclip.copy(v) raises PyperclipException *)
  on_path : string -> bool;                  (* the executable can be spawned *)
  exit_status : list string -> Z;            (* returncode of the finished command *)
  str_float : Q -> string;                   (* str(x) of a number *)
  str_CalledProcessError : list string -> Z -> string  (* str(e) of that exception *)
}.

(** The world outside the simulator object. *)
Record world : Type := mkWorld {
  trace : list event;           (* calls made so far, oldest first *)
  clipboard : option string;    (* what pyperclip.paste() returns *)
  children : list nat;          (* spawned child processes not yet signalled *)
  next_pid : nat
}.

Record state : Type := mkState {
  self : InputSimulator;
  outside : world
}.

(** ** The monad *)

Definition M (A : Type) : Type := environment -> state -> result A * state.

Definition ret {A} (a : A) : M A := fun _ s => (Ok a, s).

Definition bind {A B} (m : M A) (k : A -> M B) : M B :=
  fun env s =>
    match m env s with
    | (Ok a, s') => k a env s'
    | (Raise e, s') => (Raise e, s')
    end.

Definition raise {A} (e : exn) : M A := fun _ s => (Raise e, s).

(** [try: body except ...: handler]; [handler e = None] when no clause
    matches [e]. *)
Definition try_except {A} (body : M A) (handler : exn -> option (M A)) : M A :=
  fun env s =>
    match body env s with
    | (Ok a, s') => (Ok a, s')
    | (Raise e, s') =>
        match handler e with
        | Some k => k env s'
        | None => (Raise e, s')
        end
    end.

Declare Scope py_scope.
Delimit Scope py_scope with py.
Notation "x <- m ;; k" := (bind m (fun x => k))
  (at level 61, m at next level, right associativity) : py_scope.
Notation "m ;; k" := (bind m (fun _ => k))
  (at level 61, right associativity) : py_scope.
Local Open Scope py_scope.

Definition ask : M environment := fun env s => (Ok env, s).
Definition get_self : M InputSimulator := fun _ s => (Ok (self s), s).
Definition get_world : M world := fun _ s => (Ok (outside s), s).
Definition set_self (o : InputSimulator) : M unit :=
  fun _ s => (Ok tt, mkState o (outside s)).
Definition set_world (w : world) : M unit :=
  fun _ s => (Ok tt, mkState (self s) w).

Definition emit (e : event) : M unit :=
  w <- get_world ;;
  set_world (mkWorld (trace w ++ [e]) (clipboard w) (children w) (next_pid w)).

(** Attribute assignments [self.keyboard = ...], [self.dotool_process = ...]. *)
Definition set_keyboard (k : option PynputController) : M unit :=
  o <- get_self ;;
  set_self (mkSim (input_method o) (dotool_process o) k).

Definition set_dotool_process (p : option Popen) : M unit :=
  o <- get_self ;;
  set_self (mkSim (input_method o) p (keyboard o)).

(** ** The collaborators *)

Definition console_print (msg : string) : M unit := emit (ConsolePrint msg).
Definition print (msg : string) : M unit := emit (Print msg).

(** [exit(1)] raises [SystemExit]. *)
Definition exit {A} (code : Z) : M A := raise (SystemExit code).

Definition new_PynputController : M PynputController :=
  emit NewController ;; ret Controller.

(** The emitter records what it is asked to send; a key that the platform
    rejects is not modelled. *)
Definition keyboard_press (k : Key) : M unit := emit (Press k).
Definition keyboard_release (k : Key) : M unit := emit (Release k).

Definition Qltb (a b : Q) : bool := negb (Qle_bool b a).

(** [time.sleep] refuses a negative length with [ValueError]. *)
Definition time_sleep (secs : Q) : M unit :=
  if Qltb secs 0 then raise ValueError else emit (Sleep secs).

Definition pyperclip_paste : M (option string) :=
  env <- ask ;;
  emit ClipPaste ;;
  match paste_error env with
  | Some msg => raise (PyperclipException msg)
  | None => w <- get_world ;; ret (clipboard w)
  end.

Definition pyperclip_copy (text : string) : M unit :=
  env <- ask ;;
  emit (ClipCopy text) ;;
  match copy_error env text with
  | Some msg => raise (PyperclipException msg)
  | None =>
      w <- get_world ;;
      set_world (mkWorld (trace w) (Some text) (children w) (next_pid w))
  end.

(** [subprocess.run(command, check=True)]: blocks until the command has
    finished; [FileNotFoundError] when it cannot be spawned,
    [CalledProcessError] when it exits with a non-zero status. *)
Definition subprocess_run (command : list string) : M unit :=
  env <- ask ;;
  emit (Run command) ;;
  if on_path env (hd "" command) then
    if (exit_status env command =? 0)%Z then ret tt
    else raise (CalledProcessError command (exit_status env command))
  else raise (FileNotFoundError (hd "" command)).

(** [subprocess.Popen(cmd, stdin=subprocess.PIPE, text=True)]. *)
Definition subprocess_Popen (cmd : string) : M Popen :=
  env <- ask ;;
  if on_path env cmd then
    w <- get_world ;;
    set_world (mkWorld (trace w ++ [Spawn cmd (next_pid w)]) (clipboard w)
                       (next_pid w :: children w) (S (next_pid w))) ;;
    ret (mkPopen (next_pid w) true)
  else raise (FileNotFoundError cmd).

(** [os.kill(pid, signal.SIGINT)]: the signal is sent and the process no
    longer counts as a child; a failure of the call itself is not
    modelled. *)
Definition os_kill_SIGINT (p : nat) : M unit :=
  w <- get_world ;;
  set_world (mkWorld (trace w ++ [Kill p]) (clipboard w)
                     (remove Nat.eq_dec p (children w)) (next_pid w)).

(** Writes to the pipe and its flush: the calls are recorded; what the
    pipe answers is not modelled.  A real flush raises [BrokenPipeError]
    once the child has exited: a result [Ok] on the streaming path is that
    of a pipe that takes the data, and what the properties of the streaming
    typist establish is the calls that are made and the assertions that
    pass. *)
Definition stdin_write (p : Popen) (data : string) : M unit :=
  emit (PipeWrite (pid p) data).
Definition stdin_flush (p : Popen) : M unit := emit (PipeFlush (pid p)).

(** ** Python expressions *)

(** [max(a, b)]: the first argument unless the second is greater. *)
Definition pymax (a b : Q) : Q := if Qltb a b then b else a.

(** [value or 0.0]: [None] and zero are falsy. *)
Definition or_zero (value : option Q) : Q :=
  match value with
  | None => 0
  | Some q => if Qeq_bool q 0 then 0 else q
  end.

Definition str_nat (n : nat) : string := NilZero.string_of_uint (Nat.to_uint n).

Definition str_Key (k : Key) : string :=
  match k with
  | KeyChar c => String c ""
  | Key_cmd => "Key.cmd"
  | Key_ctrl => "Key.ctrl"
  end.

Definition LF : ascii := "010"%char.
Definition nl : string := String LF "".

(** [for char in text: body(char)]. *)
Fixpoint for_char (text : string) (body : ascii -> M unit) : M unit :=
  match text with
  | EmptyString => ret tt
  | String char rest => body char ;; for_char rest body
  end.

(** ** The program *)

(** [run_command_or_exit_on_failure(command)]. *)
Definition run_command_or_exit_on_failure (command : list string) : M unit :=
  try_except
    (subprocess_run command)
    (fun e =>
       match e with
       | CalledProcessError argv code =>
           Some (env <- ask ;;
                 print ("Error running command: " ++ str_CalledProcessError env argv code) ;;
                 exit 1%Z)
       | _ => None
       end).

(** [InputSimulator._initialize_dotool]. *)
Definition _initialize_dotool : M unit :=
  p <- subprocess_Popen "dotool" ;;
  set_dotool_process (Some p) ;;
  if stdin p then ret tt else raise AssertionError.

(** [InputSimulator.__init__].  It runs on the fresh object, whose
    attributes are filled in by the first three assignments. *)
Definition __init__ : M unit :=
  env <- ask ;;
  set_self (mkSim (config_input_method env) None None) ;;
  o <- get_self ;;
  if (input_method o =? "pynput") || (input_method o =? "clipboard") then
    k <- new_PynputController ;;
    set_keyboard (Some k)
  else if input_method o =? "dotool" then
    _initialize_dotool
  else ret tt.

(** [InputSimulator._terminate_dotool]. *)
Definition _terminate_dotool : M unit :=
  o <- get_self ;;
  match dotool_process o with
  | Some p =>
      os_kill_SIGINT (pid p) ;;
      set_dotool_process None
  | None => ret tt
  end.

(** [if not self.keyboard: self.keyboard = PynputController()]. *)
Definition ensure_keyboard : M unit :=
  o <- get_self ;;
  match keyboard o with
  | Some _ => ret tt
  | None => k <- new_PynputController ;; set_keyboard (Some k)
  end.

(** [InputSimulator._typewrite_pynput]. *)
Definition _typewrite_pynput (text : string) (interval : Q) : M unit :=
  ensure_keyboard ;;
  for_char text (fun char =>
    keyboard_press (KeyChar char) ;;
    keyboard_release (KeyChar char) ;;
    time_sleep interval).

(** [InputSimulator._clipboard_modifier_key]. *)
Definition _clipboard_modifier_key : M Key :=
  env <- ask ;;
  if sys_platform env =? "darwin" then ret Key_cmd else ret Key_ctrl.

(** The first [try] of [_typewrite_clipboard]: the value bound to
    [previous_clipboard]. *)
Definition read_previous_clipboard (text : string) : M (option string) :=
  try_except
    (previous_clipboard <- pyperclip_paste ;;
     match previous_clipboard with
     | None =>
         console_print "Clipboard input: unable to read previous clipboard (None)"
     | Some v =>
         if v =? text then
           console_print "Clipboard input: previous clipboard already matches new text"
         else
           console_print ("Clipboard input: captured previous clipboard len="
                          ++ str_nat (String.length v))
     end ;;
     ret previous_clipboard)
    (fun e =>
       match e with
       | PyperclipException exc =>
           Some (console_print ("Clipboard input: failed to read clipboard (" ++ exc
                                ++ "); proceeding without restore") ;;
                 ret None)
       | _ => None
       end).

(** The last [if] of [_typewrite_clipboard]. *)
Definition restore_clipboard (previous_clipboard : option string) (text : string) : M unit :=
  match previous_clipboard with
  | Some v =>
      if negb (v =? text) then
        try_except
          (pyperclip_copy v ;;
           console_print "Clipboard input: previous clipboard restored")
          (fun e =>
             match e with
             | PyperclipException exc =>
                 Some (console_print ("Clipboard input: failed to restore clipboard ("
                                      ++ exc ++ ")"))
             | _ => None
             end)
      else console_print "Clipboard input: no clipboard restore necessary"
  | None => console_print "Clipboard input: no clipboard restore necessary"
  end.

(** What follows a successful [pyperclip.copy(text)]. *)
Definition paste_and_restore (text : string) (minimal_delay : Q) (modifier_key : Key)
    (previous_clipboard : option string) : M unit :=
  time_sleep minimal_delay ;;
  console_print "Clipboard input: invoking paste hotkey" ;;
  (* with self.keyboard.pressed(modifier_key): *)
  keyboard_press modifier_key ;;
  keyboard_press (KeyChar "v") ;;
  keyboard_release (KeyChar "v") ;;
  keyboard_release modifier_key ;;
  time_sleep minimal_delay ;;
  console_print "Clipboard input: post-paste delay complete" ;;
  restore_clipboard previous_clipboard text ;;
  console_print "Clipboard input: completion path reached".

(** [InputSimulator._typewrite_clipboard]. *)
Definition _typewrite_clipboard (text : string) (interval : Q) : M unit :=
  env <- ask ;;
  console_print ("Clipboard input: start len=" ++ str_nat (String.length text)
                 ++ " interval=" ++ str_float env interval) ;;
  ensure_keyboard ;;
  let minimal_delay := pymax interval (2 # 100) in
  modifier_key <- _clipboard_modifier_key ;;
  console_print ("Clipboard input: using paste delay " ++ str_float env minimal_delay
                 ++ "s with modifier " ++ str_Key modifier_key) ;;
  if negb (pyperclip_imported env) then
    console_print "Clipboard input: pyperclip unavailable, falling back to typing" ;;
    _typewrite_pynput text interval
  else
    previous_clipboard <- read_previous_clipboard text ;;
    copied <-
      try_except
        (pyperclip_copy text ;;
         console_print ("Clipboard input: copied new text len="
                        ++ str_nat (String.length text)) ;;
         ret true)
        (fun e =>
           match e with
           | PyperclipException exc =>
               Some (console_print ("Clipboard input: failed to copy text (" ++ exc
                                    ++ "); falling back to typing") ;;
                     _typewrite_pynput text interval ;;
                     ret false)
           | _ => None
           end) ;;
    if copied : bool then
      paste_and_restore text minimal_delay modifier_key previous_clipboard
    else ret tt.

(** [InputSimulator._typewrite_ydotool]. *)
Definition _typewrite_ydotool (text : string) (interval : Q) : M unit :=
  env <- ask ;;
  let cmd := "ydotool" in
  run_command_or_exit_on_failure
    [cmd; "type"; "--key-delay"; str_float env (interval * 1000); "--"; text].

(** [InputSimulator._typewrite_dotool]. *)
Definition _typewrite_dotool (text : string) (interval : Q) : M unit :=
  env <- ask ;;
  o <- get_self ;;
  match dotool_process o with
  | Some p =>
      if stdin p then
        stdin_write p ("typedelay " ++ str_float env (interval * 1000) ++ nl) ;;
        stdin_write p ("type " ++ text ++ nl) ;;
        stdin_flush p
      else raise AssertionError
  | None => raise AssertionError
  end.

(** [InputSimulator.typewrite]. *)
Definition typewrite (text : string) : M unit :=
  env <- ask ;;
  let interval := or_zero (config_writing_key_press_delay env) in
  o <- get_self ;;
  if input_method o =? "pynput" then _typewrite_pynput text interval
  else if input_method o =? "clipboard" then _typewrite_clipboard text interval
  else if input_method o =? "ydotool" then _typewrite_ydotool text interval
  else if input_method o =? "dotool" then _typewrite_dotool text interval
  else ret tt.

(** [InputSimulator.cleanup]. *)
Definition cleanup : M unit :=
  o <- get_self ;;
  if input_method o =? "dotool" then _terminate_dotool else ret tt.

(** ** Reading a run *)

(** The world after the calls [evs] were added to the trace of [w]. *)
Definition logged (w : world) (evs : list event) : world :=
  mkWorld (trace w ++ evs) (clipboard w) (children w) (next_pid w).

(** The world after more calls and a clipboard write. *)
Definition logged_clip (w : world) (evs : list event) (c : option string) : world :=
  mkWorld (trace w ++ evs) c (children w) (next_pid w).

(** What the direct-key typist is to send for [text]: for each character a
    press, its release, and the pause. *)
Fixpoint keystrokes (text : string) (d : Q) : list event :=
  match text with
  | EmptyString => []
  | String c rest =>
      Press (KeyChar c) :: Release (KeyChar c) :: Sleep d :: keystrokes rest d
  end.

(** The controller call made when the simulator has no emitter yet. *)
Definition controller_calls (o : InputSimulator) : list event :=
  match keyboard o with
  | Some _ => []
  | None => [NewController]
  end.

Definition with_keyboard (o : InputSimulator) : InputSimulator :=
  mkSim (input_method o) (dotool_process o) (Some Controller).

Definition is_console_print (e : event) : bool :=
  match e with ConsolePrint _ => true | _ => false end.

(** The trace without the diagnostic lines of the console sink. *)
Definition quiet (evs : list event) : list event :=
  filter (fun e => negb (is_console_print e)) evs.

(** The texts handed to [pyperclip.copy], in order. *)
Fixpoint copies (evs : list event) : list string :=
  match evs with
  | [] => []
  | ClipCopy v :: rest => v :: copies rest
  | _ :: rest => copies rest
  end.

Definition is_clipboard_call (e : event) : bool :=
  match e with ClipPaste | ClipCopy _ => true | _ => false end.

(** A press or release of a paste modifier. *)
Definition is_modifier_event (e : event) : bool :=
  match e with
  | Press Key_cmd | Press Key_ctrl | Release Key_cmd | Release Key_ctrl => true
  | _ => false
  end.

(** The signals sent, in order. *)
Fixpoint kills (evs : list event) : list nat :=
  match evs with
  | [] => []
  | Kill p :: rest => p :: kills rest
  | _ :: rest => kills rest
  end.

(** The text written to the pipe of process [p], in order. *)
Fixpoint pipe_data (p : nat) (evs : list event) : string :=
  match evs with
  | [] => ""
  | PipeWrite q data :: rest =>
      if Nat.eqb p q then data ++ pipe_data p rest else pipe_data p rest
  | _ :: rest => pipe_data p rest
  end.

(** The lines a reader of the pipe receives: each line feed ends one. *)
Fixpoint split_lines (current data : string) : list string :=
  match data with
  | EmptyString => match current with EmptyString => [] | _ => [current] end
  | String c rest =>
      if Ascii.eqb c LF then current :: split_lines "" rest
      else split_lines (current ++ String c "") rest
  end.

Definition lines (data : string) : list string := split_lines "" data.

Fixpoint has_LF (s : string) : bool :=
  match s with
  | EmptyString => false
  | String c rest => Ascii.eqb c LF || has_LF rest
  end.

(** ** Worked examples *)

Fixpoint frac_digits (fuel : nat) (num den : Z) : string :=
  match fuel with
  | O => ""
  | S fuel' =>
      if (num =? 0)%Z then ""
      else str_nat (Z.to_nat (10 * num / den))
           ++ frac_digits fuel' (10 * num - (10 * num / den) * den)%Z den
  end.

(** A [str_float] for the examples: the decimal expansion, which is what
    Python prints for the values used below ([str(50.0) = '50.0']). *)
Definition decimal_str (q : Q) : string :=
  let n := Z.abs (Qnum q) in
  let d := Zpos (Qden q) in
  (if (Qnum q <? 0)%Z then "-" else "")
  ++ str_nat (Z.to_nat (n / d)) ++ "."
  ++ match frac_digits 17 (n mod d)%Z d with
     | EmptyString => "0"
     | digits => digits
     end.

(** An environment where every collaborator works. *)
Definition working_env (method : string) (delay : option Q) : environment :=
  mkEnv method delay "linux" true None (fun _ => None) (fun _ => true)
        (fun _ => 0%Z) decimal_str (fun _ _ => "Command returned non-zero exit status.").

Definition empty_world : world := mkWorld [] None [] 1.

Definition fresh_object : InputSimulator := mkSim "" None None.

(** [InputSimulator()]: [__init__] on a fresh object. *)
Definition construct (env : environment) (w : world) : result InputSimulator * world :=
  match __init__ env (mkState fresh_object w) with
  | (Ok _, s) => (Ok (self s), outside s)
  | (Raise e, s) => (Raise e, outside s)
  end.

(** ** Sessions *)

(** The four strategies [typewrite] dispatches on. *)
Definition input_methods : list string := ["pynput"; "clipboard"; "ydotool"; "dotool"].

(** A session: the simulator is constructed in a world where it has no
    child process yet, then [typewrite] and [cleanup] are called in any
    order, each against the collaborators as they are at that moment.  A
    call that raises leaves the object as it was at the raise.  The flag
    records whether [cleanup] has been called. *)
Inductive reachable : bool -> state -> Prop :=
| reach_construct (env : environment) (w w' : world) (o : InputSimulator) :
    children w = [] ->
    construct env w = (Ok o, w') ->
    reachable false (mkState o w')
| reach_typewrite (cleaned : bool) (s s' : state) (env : environment)
    (text : string) (r : result unit) :
    reachable cleaned s ->
    typewrite text env s = (r, s') ->
    reachable cleaned s'
| reach_cleanup (cleaned : bool) (s s' : state) (env : environment) (r : result unit) :
    reachable cleaned s ->
    cleanup env s = (r, s') ->
    reachable true s'.

(** The handle attribute and the child processes of the world agree. *)
Definition handle_children (o : InputSimulator) : list nat :=
  match dotool_process o with
  | Some p => [pid p]
  | None => []
  end.

(** The characters pressed are the characters of the text, in order. *)
Fixpoint pressed_chars (evs : list event) : string :=
  match evs with
  | [] => ""
  | Press (KeyChar c) :: rest => String c (pressed_chars rest)
  | _ :: rest => pressed_chars rest
  end.

(** The command line of the one-shot typist. *)
Definition ydotool_argv (env : environment) (text : string) : list string :=
  ["ydotool"; "type"; "--key-delay";
   str_float env (or_zero (config_writing_key_press_delay env) * 1000); "--"; text].

(** An environment without the ydotool binary. *)
Definition no_ydotool_env : environment :=
  mkEnv "ydotool" (Some (5 # 100)) "linux" true None (fun _ => None)
        (fun prog => negb (prog =? "ydotool")%string)
        (fun _ => 0%Z) decimal_str (fun _ _ => "Command returned non-zero exit status.").

(** ** Reading a clipboard run *)

(** The value bound to [previous_clipboard]: [None] when the clipboard
    cannot be read. *)
Definition snapshot (env : environment) (w : world) : option string :=
  match paste_error env with
  | Some _ => None
  | None => clipboard w
  end.

(** The restore decision: the values to copy back. *)
Definition restore_copies (previous_clipboard : option string) (text : string) : list string :=
  match previous_clipboard with
  | Some v => if (v =? text)%string then [] else [v]
  | None => []
  end.

(** The clipboard after an attempt to copy [v] to it. *)
Definition clipboard_after_copy (env : environment) (before : option string) (v : string)
  : option string :=
  match copy_error env v with
  | Some _ => before
  | None => Some v
  end.

(** [paste_modifier_for(platform)]. *)
Definition paste_modifier (env : environment) : Key :=
  if (sys_platform env =? "darwin")%string then Key_cmd else Key_ctrl.

(** Calls of the direct-key typist: emitter creation, character keys and
    sleeps. *)
Definition is_typing_event (e : event) : bool :=
  match e with
  | NewController | Press (KeyChar _) | Release (KeyChar _) | Sleep _ => true
  | _ => false
  end.

(** A clipboard simulator as constructed on Linux, with "old" on the
    clipboard. *)
Definition clipboard_env : environment := working_env "clipboard" (Some (1 # 100)).

Definition clipboard_state : state :=
  mkState (mkSim "clipboard" None (Some Controller))
          (mkWorld [NewController] (Some "old") [] 1).

(** The same collaborators, except that every clipboard write is refused. *)
Definition read_only_clipboard_env : environment :=
  mkEnv "clipboard" (Some (1 # 100)) "linux" true None
        (fun _ => Some "could not open clipboard") (fun _ => true)
        (fun _ => 0%Z) decimal_str (fun _ _ => "Command returned non-zero exit status.").

(** The same collaborators, except that [import pyperclip] failed. *)
Definition no_pyperclip_env : environment :=
  mkEnv "clipboard" (Some (1 # 100)) "linux" false None (fun _ => None) (fun _ => true)
        (fun _ => 0%Z) decimal_str (fun _ _ => "Command returned non-zero exit status.").

(** The handle invariant of a session: the child processes of the world
    are exactly the one behind the handle, if any, and the handle is there
    iff the method is dotool and [cleanup] has not been called. *)
Definition session_invariant (cleaned : bool) (s : state) : Prop :=
  children (outside s) = handle_children (self s)
  /\ (List.length (children (outside s)) <= 1)%nat
  /\ (dotool_process (self s) <> None
      <-> input_method (self s) = "dotool" /\ cleaned = false).

(** A computation that leaves the method, the process handle and the child
    processes alone, whether it returns or raises. *)
Definition keeps_process {A} (m : M A) : Prop :=
  forall env s r s',
    m env s = (r, s') ->
    input_method (self s') = input_method (self s)
    /\ dotool_process (self s') = dotool_process (self s)
    /\ children (outside s') = children (outside s).

(** ** Frames of a call *)

(** A computation that, started where [I] holds of the object and the
    clipboard, ends where [I] holds again (returning or raising) and only
    adds calls that satisfy [P] to the trace. *)
Definition respects (I : InputSimulator -> option string -> Prop) (P : event -> bool)
    {A} (m : M A) : Prop :=
  forall env s r s',
    I (self s) (clipboard (outside s)) ->
    m env s = (r, s') ->
    I (self s') (clipboard (outside s'))
    /\ exists new,
         trace (outside s') = trace (outside s) ++ new /\ forallb P new = true.

(** Calls that start or signal a child process. *)
Definition is_process_event (e : event) : bool :=
  match e with
  | Spawn _ _ | Kill _ => true
  | _ => false
  end.

Definition is_NewController (e : event) : bool :=
  match e with
  | NewController => true
  | _ => false
  end.

(** The backends that type through the key-event emitter. *)
Definition emitter_methods : list string := ["pynput"; "clipboard"].

(** The pipe of the handle, when there is a handle, is open. *)
Definition handle_has_pipe (o : InputSimulator) : Prop :=
  match dotool_process o with
  | Some p => stdin p = true
  | None => True
  end.

(** The calls of one streaming [typewrite]. *)
Definition dotool_calls (env : environment) (p : Popen) (text : string) : list event :=
  [PipeWrite (pid p)
     ("typedelay " ++ str_float env (or_zero (config_writing_key_press_delay env) * 1000)
      ++ nl);
   PipeWrite (pid p) ("type " ++ text ++ nl);
   PipeFlush (pid p)].

(** Collaborators whose ydotool exits with status 3. *)
Definition failing_ydotool_env : environment :=
  mkEnv "ydotool" (Some (5 # 100)) "linux" true None (fun _ => None) (fun _ => true)
        (fun _ => 3%Z) decimal_str (fun _ _ => "Command returned non-zero exit status.").

(** Collaborators without the dotool binary. *)
Definition no_dotool_env : environment :=
  mkEnv "dotool" (Some (5 # 100)) "linux" true None (fun _ => None)
        (fun prog => negb (prog =? "dotool")%string)
        (fun _ => 0%Z) decimal_str (fun _ _ => "Command returned non-zero exit status.").

(** Collaborators whose clipboard accepts the text "new" and nothing else. *)
Definition one_way_clipboard_env : environment :=
  mkEnv "clipboard" (Some (1 # 100)) "linux" true None
        (fun v => if (v =? "new")%string then None else Some "clipboard is locked")
        (fun _ => true)
        (fun _ => 0%Z) decimal_str (fun _ _ => "Command returned non-zero exit status.").

(** A dotool simulator as constructed in the empty world. *)
Definition dotool_state : state :=
  mkState (mkSim "dotool" (Some (mkPopen 1 true)) None)
          (mkWorld [Spawn "dotool" 1] None [1%nat] 2).

(** A direct-key simulator as constructed in the empty world. *)
Definition pynput_state : state :=
  mkState (mkSim "pynput" None (Some Controller)) (mkWorld [NewController] None [] 1).

(** * Properties *)

(** ** Running the monad *)

(** Symbolic execution of the monad's plumbing; strings and numbers are
    left as they are written. *)
Ltac exec :=
  cbv beta iota zeta delta
      [bind ret raise try_except ask get_self get_world set_self set_world emit
       console_print print exit new_PynputController keyboard_press keyboard_release
       stdin_write stdin_flush set_keyboard set_dotool_process os_kill_SIGINT];
  cbn [self outside trace clipboard children next_pid
       input_method dotool_process keyboard fst snd
       String.eqb Ascii.eqb Bool.eqb orb andb negb].

(** The same, with the world and the object written out. *)
Ltac exec_world :=
  exec; unfold logged, logged_clip, with_keyboard; exec.

(** Use a lemma of the form [exists x, m env (mkState o w) = ...] on the
    next call of the run. *)
Ltac use_run lem :=
  let x := fresh "msg" in
  let E := fresh "E" in
  match goal with
  | |- context [read_previous_clipboard ?t ?e (mkState ?o ?w)] =>
      destruct (lem t e o w) as [x E]; rewrite E; clear E; exec_world
  | |- context [restore_clipboard ?v ?t ?e (mkState ?o ?w)] =>
      destruct (lem v t e o w) as [x E]; rewrite E; clear E; exec_world
  end.

(** Name the attributes of the object and the parts of the world. *)
Ltac open_state o w :=
  let im := fresh "im" in
  let dp := fresh "dp" in
  let kb := fresh "kb" in
  let tr := fresh "tr" in
  let cb := fresh "cb" in
  let ch := fresh "ch" in
  let np := fresh "np" in
  destruct o as [im dp kb]; destruct w as [tr cb ch np];
  cbn [self outside trace clipboard children next_pid
       input_method dotool_process keyboard] in *.

(** Flatten the trace that a run has built by successive appends. *)
Ltac flat_trace := unfold logged, logged_clip; cbn [trace clipboard children next_pid];
  repeat rewrite <- app_assoc; cbn [app].

Lemma bind_ok {A B} (m : M A) (k : A -> M B) env s a s' :
  m env s = (Ok a, s') -> bind m k env s = k a env s'.
Proof. intros H. unfold bind. now rewrite H. Qed.

Lemma bind_raise {A B} (m : M A) (k : A -> M B) env s e s' :
  m env s = (Raise e, s') -> bind m k env s = (Raise e, s').
Proof. intros H. unfold bind. now rewrite H. Qed.

Lemma logged_nil w : logged w [] = w.
Proof. destruct w. unfold logged. simpl. now rewrite app_nil_r. Qed.

Lemma logged_logged w evs evs' : logged (logged w evs) evs' = logged w (evs ++ evs').
Proof. unfold logged. simpl. now rewrite app_assoc. Qed.

Lemma emit_run e env o w :
  emit e env (mkState o w) = (Ok tt, mkState o (logged w [e])).
Proof. reflexivity. Qed.

Lemma Qltb_false_of_nonneg d : 0 <= d -> Qltb d 0 = false.
Proof.
  intros H. unfold Qltb.
  apply (proj2 (Qle_bool_iff 0 d)) in H. now rewrite H.
Qed.

Lemma Qltb_true_of_neg d : d < 0 -> Qltb d 0 = true.
Proof.
  intros H. unfold Qltb.
  destruct (Qle_bool 0 d) eqn:E; [|reflexivity].
  apply Qle_bool_iff in E. exfalso. exact (Qlt_not_le _ _ H E).
Qed.

Lemma time_sleep_run d env o w :
  0 <= d -> time_sleep d env (mkState o w) = (Ok tt, mkState o (logged w [Sleep d])).
Proof. intros H. unfold time_sleep. now rewrite (Qltb_false_of_nonneg d H). Qed.

(** [max(i, 0.02)] is one of its arguments and below neither. *)
Lemma pymax_floor i : 2 # 100 <= pymax i (2 # 100).
Proof.
  unfold pymax, Qltb. destruct (Qle_bool (2 # 100) i) eqn:E; simpl.
  - now apply Qle_bool_iff.
  - apply Qle_refl.
Qed.

Lemma pymax_ge i : i <= pymax i (2 # 100).
Proof.
  unfold pymax, Qltb. destruct (Qle_bool (2 # 100) i) eqn:E; simpl.
  - apply Qle_refl.
  - destruct (Qlt_le_dec i (2 # 100)) as [H|H].
    + now apply Qlt_le_weak.
    + apply Qle_bool_iff in H. congruence.
Qed.

Lemma pymax_cases i : pymax i (2 # 100) = i \/ pymax i (2 # 100) = 2 # 100.
Proof. unfold pymax. destruct (Qltb i (2 # 100)); auto. Qed.

Lemma pymax_nonneg i : 0 <= pymax i (2 # 100).
Proof. apply Qle_trans with (2 # 100); [discriminate | apply pymax_floor]. Qed.

(** ** The direct-key typist *)

Lemma ensure_keyboard_run env o w :
  ensure_keyboard env (mkState o w)
  = (Ok tt, mkState (with_keyboard o) (logged w (controller_calls o))).
Proof.
  destruct o as [im dp [[]|]]; unfold ensure_keyboard, controller_calls, with_keyboard; simpl.
  - now rewrite logged_nil.
  - reflexivity.
Qed.

Lemma for_char_keystrokes text d env o w :
  0 <= d ->
  for_char text
    (fun char =>
       keyboard_press (KeyChar char) ;; keyboard_release (KeyChar char) ;; time_sleep d)
    env (mkState o w)
  = (Ok tt, mkState o (logged w (keystrokes text d))).
Proof.
  intros Hd. revert w. induction text as [|c rest IH]; intros w; simpl.
  - unfold ret. now rewrite logged_nil.
  - unfold bind at 1. unfold bind at 1.
    unfold keyboard_press at 1. rewrite emit_run.
    unfold bind at 1. unfold keyboard_release at 1. rewrite emit_run.
    rewrite time_sleep_run by exact Hd.
    rewrite IH. now rewrite !logged_logged.
Qed.

Lemma typewrite_pynput_run text d env o w :
  0 <= d ->
  _typewrite_pynput text d env (mkState o w)
  = (Ok tt, mkState (with_keyboard o)
                    (logged w (controller_calls o ++ keystrokes text d))).
Proof.
  intros Hd. unfold _typewrite_pynput.
  rewrite (bind_ok _ _ _ _ _ _ (ensure_keyboard_run env o w)).
  rewrite for_char_keystrokes by exact Hd. now rewrite logged_logged.
Qed.

Lemma typewrite_dispatch_pynput text env s :
  input_method (self s) = "pynput" ->
  typewrite text env s
  = _typewrite_pynput text (or_zero (config_writing_key_press_delay env)) env s.
Proof.
  intros H. destruct s as [o w]. open_state o w. subst. unfold typewrite. now exec.
Qed.

(** C4. For every text and every delay [d >= 0], the direct-key typist
    returns normally after sending, for each character of the text in
    order, one press immediately followed by one release of that character
    and then one sleep of [d] seconds, the last character included; the
    only other call is the creation of the emitter when the simulator has
    none. *)
Theorem C4_direct_key_sequence (text : string) (d : Q) (env : environment) (s : state) :
  0 <= d ->
  _typewrite_pynput text d env s
  = (Ok tt, mkState (with_keyboard (self s))
                    (logged (outside s)
                            (controller_calls (self s) ++ keystrokes text d))).
Proof. intros Hd. destruct s as [o w]. now apply typewrite_pynput_run. Qed.

Lemma C4_direct_key_sequence_witness :
  0 <= 5 # 100 /\
  _typewrite_pynput "hi" (5 # 100) (working_env "pynput" (Some (5 # 100)))
                    (mkState (mkSim "pynput" None None) empty_world)
  = (Ok tt, mkState (mkSim "pynput" None (Some Controller))
                    (mkWorld [NewController;
                              Press (KeyChar "h"); Release (KeyChar "h"); Sleep (5 # 100);
                              Press (KeyChar "i"); Release (KeyChar "i"); Sleep (5 # 100)]
                             None [] 1)).
Proof.
  split.
  - discriminate.
  - apply (C4_direct_key_sequence "hi" (5 # 100)). discriminate.
Defined.

(** The characters pressed are the characters of the text, in order. *)
Lemma keystrokes_pressed text d : pressed_chars (keystrokes text d) = text.
Proof. induction text as [|c rest IH]; simpl; [reflexivity | now rewrite IH]. Qed.

Lemma keystrokes_length text d :
  List.length (keystrokes text d) = (3 * String.length text)%nat.
Proof. induction text as [|c rest IH]; simpl; [reflexivity | rewrite IH; lia]. Qed.

(** The bound on the delay is needed: with a negative delay the first
    sleep raises and the rest of the text is not typed. *)
Remark direct_key_negative_delay c rest d env o w :
  d < 0 ->
  _typewrite_pynput (String c rest) d env (mkState o w)
  = (Raise ValueError,
     mkState (with_keyboard o)
             (logged w (controller_calls o ++ [Press (KeyChar c); Release (KeyChar c)]))).
Proof.
  intros Hd. unfold _typewrite_pynput.
  rewrite (bind_ok _ _ _ _ _ _ (ensure_keyboard_run env o w)).
  simpl. unfold bind at 1. unfold bind at 1.
  unfold keyboard_press at 1. rewrite emit_run.
  unfold bind at 1. unfold keyboard_release at 1. rewrite emit_run.
  unfold time_sleep. rewrite (Qltb_true_of_neg d Hd). unfold raise.
  now rewrite !logged_logged.
Qed.

(** ** The streaming typist and its process *)

Lemma split_lines_line current line rest :
  has_LF line = false ->
  split_lines current (line ++ String LF rest)
  = (current ++ line)%string :: split_lines "" rest.
Proof.
  revert current. induction line as [|c line IH]; intros current H; simpl in *.
  - assert (E : (current ++ "")%string = current).
    { clear. induction current; simpl; [reflexivity | now f_equal]. }
    now rewrite E.
  - apply orb_false_iff in H. destruct H as [Hc Hl].
    replace (Ascii.eqb c LF) with false.
    rewrite IH by exact Hl. f_equal.
    clear. induction current; simpl; [reflexivity | now f_equal].
Qed.

Lemma has_LF_app (a b : string) : has_LF (a ++ b) = has_LF a || has_LF b.
Proof. induction a as [|c a IH]; simpl; [reflexivity | now rewrite IH, orb_assoc]. Qed.

Lemma append_assoc (a b c : string) : ((a ++ b) ++ c = a ++ (b ++ c))%string.
Proof. induction a as [|x a IH]; simpl; [reflexivity | now rewrite IH]. Qed.

Lemma lines_two (a b : string) :
  has_LF a = false -> has_LF b = false ->
  lines ((a ++ nl) ++ (b ++ nl) ++ "") = [a; b].
Proof.
  intros Ha Hb. unfold lines, nl.
  rewrite (append_assoc a). cbn [append]. rewrite split_lines_line by exact Ha.
  rewrite (append_assoc b). cbn [append]. rewrite split_lines_line by exact Hb.
  reflexivity.
Qed.

Lemma typewrite_dotool_run text d env o w p :
  dotool_process o = Some p -> stdin p = true ->
  _typewrite_dotool text d env (mkState o w)
  = (Ok tt, mkState o (logged w [PipeWrite (pid p) ("typedelay " ++ str_float env (d * 1000) ++ nl);
                                 PipeWrite (pid p) ("type " ++ text ++ nl);
                                 PipeFlush (pid p)])).
Proof.
  intros Hp Hs. unfold _typewrite_dotool. exec. rewrite Hp. exec. rewrite Hs. exec.
  flat_trace. reflexivity.
Qed.

Lemma typewrite_dispatch_dotool text env s :
  input_method (self s) = "dotool" ->
  typewrite text env s
  = _typewrite_dotool text (or_zero (config_writing_key_press_delay env)) env s.
Proof. intros H. unfold typewrite. exec. now rewrite H. Qed.

(** C1 (as amended). While the simulator holds its child process, a
    [typewrite(T)] call on the dotool backend with configured delay [d]
    makes exactly three calls on the pipe, in this order: a write of
    [typedelay {d*1000}] ended by a line feed, a write of [type {T}] ended
    by a line feed, and a flush; nothing is read.  When neither [T] nor the
    printed number contains a line feed, the child process receives exactly
    the two lines [typedelay {d*1000}] and [type {T}]. *)
Theorem C1_dotool_two_directives (text : string) (env : environment) (s : state) (p : Popen) :
  input_method (self s) = "dotool" ->
  dotool_process (self s) = Some p ->
  stdin p = true ->
  let d := or_zero (config_writing_key_press_delay env) in
  let calls := [PipeWrite (pid p) ("typedelay " ++ str_float env (d * 1000) ++ nl);
                PipeWrite (pid p) ("type " ++ text ++ nl);
                PipeFlush (pid p)] in
  typewrite text env s = (Ok tt, mkState (self s) (logged (outside s) calls))
  /\ (has_LF text = false ->
      has_LF (str_float env (d * 1000)) = false ->
      lines (pipe_data (pid p) calls)
      = [("typedelay " ++ str_float env (d * 1000))%string; ("type " ++ text)%string]).
Proof.
  intros Hm Hp Hs d calls. split.
  - rewrite typewrite_dispatch_dotool by exact Hm.
    destruct s as [o w]. now apply typewrite_dotool_run.
  - intros HT Hd. unfold calls. cbn [pipe_data]. rewrite Nat.eqb_refl.
    rewrite <- (append_assoc "typedelay "), <- (append_assoc "type ").
    apply lines_two; rewrite has_LF_app.
    + now rewrite Hd.
    + now rewrite HT.
Qed.

Lemma C1_dotool_two_directives_witness :
  let env := working_env "dotool" (Some (5 # 100)) in
  let s := mkState (mkSim "dotool" (Some (mkPopen 1 true)) None)
                   (mkWorld [Spawn "dotool" 1] None [1%nat] 2) in
  construct env empty_world = (Ok (self s), outside s)
  /\ typewrite "hi" env s
     = (Ok tt, mkState (self s)
                 (mkWorld [Spawn "dotool" 1;
                           PipeWrite 1 ("typedelay 50.0" ++ nl);
                           PipeWrite 1 ("type hi" ++ nl);
                           PipeFlush 1] None [1%nat] 2))
  /\ lines (pipe_data 1 (trace (outside (snd (typewrite "hi" env s)))))
     = ["typedelay 50.0"; "type hi"].
Proof.
  destruct (C1_dotool_two_directives "hi" (working_env "dotool" (Some (5 # 100)))
              (mkState (mkSim "dotool" (Some (mkPopen 1 true)) None)
                       (mkWorld [Spawn "dotool" 1] None [1%nat] 2))
              (mkPopen 1 true) eq_refl eq_refl eq_refl) as [Hrun Hlines].
  split; [reflexivity | split].
  - exact Hrun.
  - exact (Hlines eq_refl eq_refl).
Defined.

(** C1 (counterexample). With the text "a", line feed, "b" the child
    process of a freshly constructed dotool simulator receives three lines,
    the last of which is not a directive of the call. *)
Lemma C1_line_feed_counterexample :
  let env := working_env "dotool" (Some (5 # 100)) in
  let s := mkState (mkSim "dotool" (Some (mkPopen 1 true)) None)
                   (mkWorld [Spawn "dotool" 1] None [1%nat] 2) in
  construct env empty_world = (Ok (self s), outside s)
  /\ fst (typewrite ("a" ++ nl ++ "b") env s) = Ok tt
  /\ lines (pipe_data 1 (trace (outside (snd (typewrite ("a" ++ nl ++ "b") env s)))))
     = ["typedelay 50.0"; "type a"; "b"].
Proof. repeat split. Qed.

(** Once [cleanup] has cleared the handle the assertion of the streaming
    typist fails and nothing is written. *)
Remark typewrite_dotool_without_process text d env o w :
  dotool_process o = None ->
  _typewrite_dotool text d env (mkState o w) = (Raise AssertionError, mkState o w).
Proof. intros H. unfold _typewrite_dotool. exec. now rewrite H. Qed.

Lemma cleanup_alive env o w p :
  input_method o = "dotool" ->
  dotool_process o = Some p ->
  cleanup env (mkState o w)
  = (Ok tt, mkState (mkSim (input_method o) None (keyboard o))
                    (mkWorld (trace w ++ [Kill (pid p)]) (clipboard w)
                             (remove Nat.eq_dec (pid p) (children w)) (next_pid w))).
Proof.
  intros Hm Hp. open_state o w. subst. unfold cleanup. exec.
  unfold _terminate_dotool. exec. reflexivity.
Qed.

Lemma cleanup_without_process env s :
  dotool_process (self s) = None -> cleanup env s = (Ok tt, s).
Proof.
  intros Hp. destruct s as [o w]. open_state o w. subst. unfold cleanup. exec.
  destruct (im =? "dotool")%string; [|reflexivity].
  unfold _terminate_dotool. exec. reflexivity.
Qed.

(** C6. On the dotool backend the first [cleanup()] of a simulator that
    holds its child process sends exactly one interrupt signal, to that
    process, and clears the handle; a second [cleanup()] sends nothing and
    leaves the simulator and the world as they are.  More generally a
    [cleanup()] of a simulator without a process handle changes nothing. *)
Theorem C6_cleanup_idempotent (env env' : environment) (s : state) (p : Popen) :
  input_method (self s) = "dotool" ->
  dotool_process (self s) = Some p ->
  (exists s1,
      cleanup env s = (Ok tt, s1)
      /\ trace (outside s1) = trace (outside s) ++ [Kill (pid p)]
      /\ dotool_process (self s1) = None
      /\ cleanup env' s1 = (Ok tt, s1)
      /\ kills (trace (outside (snd (cleanup env' s1)))) = kills (trace (outside s)) ++ [pid p])
  /\ (forall env0 s0, dotool_process (self s0) = None -> cleanup env0 s0 = (Ok tt, s0)).
Proof.
  intros Hm Hp. split.
  - destruct s as [o w]. cbn [self outside] in *.
    eexists. split; [apply (cleanup_alive env o w p Hm Hp)|].
    cbn [self outside trace dotool_process]. split; [reflexivity|]. split; [reflexivity|].
    rewrite cleanup_without_process by reflexivity. split; [reflexivity|].
    cbn [snd outside trace]. clear. induction (trace w) as [|e tr IH]; [reflexivity|].
    destruct e; cbn [app kills]; now rewrite ?IH.
  - intros env0 s0 H0. now apply cleanup_without_process.
Qed.

Lemma C6_cleanup_idempotent_witness :
  let env := working_env "dotool" None in
  let s := mkState (mkSim "dotool" (Some (mkPopen 1 true)) None)
                   (mkWorld [Spawn "dotool" 1] None [1%nat] 2) in
  let s1 := mkState (mkSim "dotool" None None)
                    (mkWorld [Spawn "dotool" 1; Kill 1] None [] 2) in
  construct env empty_world = (Ok (self s), outside s)
  /\ cleanup env s = (Ok tt, s1)
  /\ cleanup env s1 = (Ok tt, s1).
Proof.
  pose proof (C6_cleanup_idempotent (working_env "dotool" None) (working_env "dotool" None)
                (mkState (mkSim "dotool" (Some (mkPopen 1 true)) None)
                         (mkWorld [Spawn "dotool" 1] None [1%nat] 2))
                (mkPopen 1 true) eq_refl eq_refl) as [_ Hnone].
  split; [reflexivity | split; [reflexivity|]].
  apply Hnone. reflexivity.
Defined.

(** ** The one-shot typist *)

Lemma typewrite_dispatch_ydotool text env s :
  input_method (self s) = "ydotool" ->
  typewrite text env s
  = _typewrite_ydotool text (or_zero (config_writing_key_press_delay env)) env s.
Proof.
  intros H. destruct s as [o w]. open_state o w. subst. unfold typewrite. now exec.
Qed.

(** X6. On the ydotool backend, when the binary can be spawned and exits
    with status zero, [typewrite(text)] returns after exactly one
    [subprocess.run] call, of ydotool, type, --key-delay, the delay times
    1000 as printed, --, and the text as the last argument; the object and
    the clipboard are untouched. *)
Lemma ydotool_success text env s :
  input_method (self s) = "ydotool" ->
  on_path env "ydotool" = true ->
  exit_status env (ydotool_argv env text) = 0%Z ->
  typewrite text env s
  = (Ok tt, mkState (self s) (logged (outside s) [Run (ydotool_argv env text)])).
Proof.
  intros Hm Hp Hx. rewrite typewrite_dispatch_ydotool by exact Hm.
  destruct s as [o w]. unfold _typewrite_ydotool, run_command_or_exit_on_failure, subprocess_run.
  exec. cbn [hd]. rewrite Hp. fold (ydotool_argv env text). rewrite Hx. reflexivity.
Qed.

(** X7. On the ydotool backend, when the command exits with a non-zero
    status, whatever it is, [typewrite] prints one line "Error running
    command: ..." carrying the exception's text and leaves with
    [SystemExit(1)]: the exit code is 1, not the command's status, and the
    command is not run again. *)
Lemma ydotool_nonzero_exit text env s :
  input_method (self s) = "ydotool" ->
  on_path env "ydotool" = true ->
  exit_status env (ydotool_argv env text) <> 0%Z ->
  typewrite text env s
  = (Raise (SystemExit 1),
     mkState (self s)
             (logged (outside s)
                     [Run (ydotool_argv env text);
                      Print ("Error running command: "
                             ++ str_CalledProcessError env (ydotool_argv env text)
                                  (exit_status env (ydotool_argv env text)))])).
Proof.
  intros Hm Hp Hx. rewrite typewrite_dispatch_ydotool by exact Hm.
  destruct s as [o w]. unfold _typewrite_ydotool, run_command_or_exit_on_failure, subprocess_run.
  exec. cbn [hd]. rewrite Hp. fold (ydotool_argv env text).
  apply Z.eqb_neq in Hx. rewrite Hx. exec. flat_trace. reflexivity.
Qed.

(** A command that cannot be spawned raises [FileNotFoundError], which no
    [except] clause of the program matches: nothing is printed and
    [exit] is not called. *)
Lemma ydotool_spawn_failure text env s :
  input_method (self s) = "ydotool" ->
  on_path env "ydotool" = false ->
  typewrite text env s
  = (Raise (FileNotFoundError "ydotool"),
     mkState (self s) (logged (outside s) [Run (ydotool_argv env text)])).
Proof.
  intros Hm Hp. rewrite typewrite_dispatch_ydotool by exact Hm.
  destruct s as [o w]. unfold _typewrite_ydotool, run_command_or_exit_on_failure, subprocess_run.
  exec. cbn [hd]. rewrite Hp. reflexivity.
Qed.

(** C7 (the code at the failing input). With no ydotool binary to spawn,
    [typewrite("hi")] on the ydotool backend makes its one
    [subprocess.run] call and then leaves with [FileNotFoundError]: it
    does not print and does not call [exit], unlike the non-zero exit
    status case. *)
Theorem C7_spawn_failure_is_not_an_exit :
  construct no_ydotool_env empty_world = (Ok (mkSim "ydotool" None None), empty_world)
  /\ typewrite "hi" no_ydotool_env (mkState (mkSim "ydotool" None None) empty_world)
     = (Raise (FileNotFoundError "ydotool"),
        mkState (mkSim "ydotool" None None)
                (mkWorld [Run ["ydotool"; "type"; "--key-delay"; "50.0"; "--"; "hi"]]
                         None [] 1)).
Proof. split; reflexivity. Qed.

(** ** Unknown input methods *)

Lemma not_in_input_methods m :
  ~ In m input_methods ->
  (m =? "pynput")%string = false /\ (m =? "clipboard")%string = false
  /\ (m =? "ydotool")%string = false /\ (m =? "dotool")%string = false.
Proof.
  intros H. unfold input_methods in H. cbn [In] in H.
  repeat split; apply String.eqb_neq; intros E; apply H; subst; tauto.
Qed.

(** C9 (as amended). Construction with a configuration value outside the
    four strategies is not rejected: it succeeds without any call to a
    collaborator and yields a simulator with that method, no emitter and no
    process handle, on which every [typewrite] and every [cleanup] returns
    without any effect. *)
Theorem C9_unknown_method_is_accepted (env : environment) (w : world) :
  ~ In (config_input_method env) input_methods ->
  let o := mkSim (config_input_method env) None None in
  construct env w = (Ok o, w)
  /\ (forall text env' w', typewrite text env' (mkState o w') = (Ok tt, mkState o w'))
  /\ (forall env' w', cleanup env' (mkState o w') = (Ok tt, mkState o w')).
Proof.
  intros H o. destruct (not_in_input_methods _ H) as (H1 & H2 & H3 & H4).
  repeat split.
  - unfold construct, __init__. exec. rewrite H1, H2, H4. exec. reflexivity.
  - intros text env' w'. unfold typewrite, o. exec. now rewrite H1, H2, H3, H4.
  - intros env' w'. unfold cleanup, o. exec. now rewrite H4.
Qed.

Lemma C9_unknown_method_is_accepted_witness :
  let env := working_env "xdotool" None in
  let o := mkSim "xdotool" None None in
  ~ In "xdotool" input_methods
  /\ construct env empty_world = (Ok o, empty_world)
  /\ typewrite "hi" env (mkState o empty_world) = (Ok tt, mkState o empty_world).
Proof.
  assert (H : ~ In "xdotool" input_methods).
  { unfold input_methods. cbn [In]. intros [E|[E|[E|[E|[]]]]]; discriminate E. }
  destruct (C9_unknown_method_is_accepted (working_env "xdotool" None) empty_world H)
    as (Hc & Ht & _).
  split; [exact H | split; [exact Hc | exact (Ht "hi" _ empty_world)]].
Defined.

(** C9 (counterexample). Construction with the method "xdotool" returns a
    simulator, and its [typewrite] does nothing. *)
Lemma C9_construction_counterexample :
  construct (working_env "xdotool" None) empty_world
  = (Ok (mkSim "xdotool" None None), empty_world)
  /\ typewrite "hi" (working_env "xdotool" None) (mkState (mkSim "xdotool" None None) empty_world)
     = (Ok tt, mkState (mkSim "xdotool" None None) empty_world).
Proof. split; reflexivity. Qed.

(** ** The clipboard typist *)

Lemma typewrite_dispatch_clipboard text env s :
  input_method (self s) = "clipboard" ->
  typewrite text env s
  = _typewrite_clipboard text (or_zero (config_writing_key_press_delay env)) env s.
Proof.
  intros H. destruct s as [o w]. open_state o w. subst. unfold typewrite. now exec.
Qed.

Lemma clipboard_modifier_key_run env s :
  _clipboard_modifier_key env s = (Ok (paste_modifier env), s).
Proof.
  unfold _clipboard_modifier_key, paste_modifier. exec.
  now destruct (sys_platform env =? "darwin")%string.
Qed.

(** The snapshot step: one [paste] call and one diagnostic line, whatever
    the clipboard answers. *)
Lemma read_previous_clipboard_run text env o w :
  exists msg,
    read_previous_clipboard text env (mkState o w)
    = (Ok (snapshot env w), mkState o (logged w [ClipPaste; ConsolePrint msg])).
Proof.
  open_state o w. unfold read_previous_clipboard, pyperclip_paste, snapshot. exec.
  destruct (paste_error env) as [exc|]; exec.
  - eexists. flat_trace. reflexivity.
  - destruct cb as [v|]; exec.
    + destruct (v =? text)%string; exec; eexists; flat_trace; reflexivity.
    + eexists. flat_trace. reflexivity.
Qed.

(** The restore step: at most one [copy] call, of the snapshot. *)
Lemma restore_clipboard_run previous_clipboard text env o w :
  exists msg,
    restore_clipboard previous_clipboard text env (mkState o w)
    = (Ok tt,
       mkState o (logged_clip w
                    (map ClipCopy (restore_copies previous_clipboard text)
                     ++ [ConsolePrint msg])
                    (fold_left (clipboard_after_copy env)
                               (restore_copies previous_clipboard text) (clipboard w)))).
Proof.
  open_state o w.
  unfold restore_clipboard, restore_copies, clipboard_after_copy, pyperclip_copy.
  destruct previous_clipboard as [v|]; exec.
  - destruct (v =? text)%string; exec.
    + eexists. reflexivity.
    + cbn [map fold_left]. destruct (copy_error env v) as [exc|]; exec;
        eexists; flat_trace; reflexivity.
  - eexists. reflexivity.
Qed.

Lemma quiet_app evs evs' : quiet (evs ++ evs') = quiet evs ++ quiet evs'.
Proof. unfold quiet. apply filter_app. Qed.

Lemma quiet_controller_calls o : quiet (controller_calls o) = controller_calls o.
Proof. unfold controller_calls. now destruct (keyboard o). Qed.

Lemma quiet_map_ClipCopy vs : quiet (map ClipCopy vs) = map ClipCopy vs.
Proof. induction vs as [|v vs IH]; [reflexivity|]. cbn. unfold quiet in IH. now rewrite IH. Qed.

(** The paste path: [pyperclip] is there and the copy of the text
    succeeds.  The run returns; apart from diagnostic lines it consists of
    the snapshot read, the copy, the settle sleep, the hotkey, the second
    settle sleep and the restore copies. *)
Lemma typewrite_clipboard_paste_path text i env o w :
  pyperclip_imported env = true ->
  copy_error env text = None ->
  exists new,
    _typewrite_clipboard text i env (mkState o w)
    = (Ok tt,
       mkState (with_keyboard o)
               (logged_clip w new
                  (fold_left (clipboard_after_copy env)
                             (restore_copies (snapshot env w) text) (Some text))))
    /\ quiet new
       = controller_calls o
         ++ [ClipPaste; ClipCopy text;
             Sleep (pymax i (2 # 100));
             Press (paste_modifier env); Press (KeyChar "v");
             Release (KeyChar "v"); Release (paste_modifier env);
             Sleep (pymax i (2 # 100))]
         ++ map ClipCopy (restore_copies (snapshot env w) text).
Proof.
  intros Himp Hcopy. open_state o w.
  unfold _typewrite_clipboard. exec.
  rewrite ensure_keyboard_run. exec_world.
  rewrite clipboard_modifier_key_run. exec_world.
  rewrite Himp. exec_world.
  use_run read_previous_clipboard_run.
  unfold pyperclip_copy. exec_world. rewrite Hcopy. exec_world.
  unfold paste_and_restore. exec_world.
  rewrite time_sleep_run by apply pymax_nonneg. exec_world.
  rewrite time_sleep_run by apply pymax_nonneg. exec_world.
  use_run restore_clipboard_run.
  unfold snapshot. cbn [clipboard]. flat_trace.
  eexists. split; [reflexivity|].
  destruct kb as [[]|]; unfold controller_calls; cbn [keyboard app];
    unfold quiet; cbn [filter is_console_print negb app];
    rewrite filter_app; cbn [filter is_console_print negb app];
    rewrite app_nil_r; fold (quiet (map ClipCopy
      (restore_copies match paste_error env with Some _ => None | None => cb end text)));
    now rewrite quiet_map_ClipCopy.
Qed.

Lemma time_sleep_cases d env o w :
  time_sleep d env (mkState o w)
  = if Qltb d 0 then (Raise ValueError, mkState o w)
    else (Ok tt, mkState o (logged w [Sleep d])).
Proof. unfold time_sleep. now destruct (Qltb d 0). Qed.

(** Whatever the delay, a run of the direct-key typist only creates the
    emitter, presses and releases character keys, and sleeps. *)
Lemma for_char_typing_only text d env o :
  forall w r s',
    for_char text
      (fun char =>
         keyboard_press (KeyChar char) ;; keyboard_release (KeyChar char) ;; time_sleep d)
      env (mkState o w) = (r, s') ->
    exists evs, s' = mkState o (logged w evs) /\ forallb is_typing_event evs = true.
Proof.
  induction text as [|c rest IH]; intros w r s'; cbn [for_char].
  - intros H. exists []. rewrite logged_nil. split; [|reflexivity].
    unfold ret in H. now inversion H.
  - unfold bind at 1. unfold bind at 1.
    unfold keyboard_press at 1. rewrite emit_run.
    unfold bind at 1. unfold keyboard_release at 1. rewrite emit_run.
    rewrite time_sleep_cases, !logged_logged. cbn [app].
    destruct (Qltb d 0).
    + intros H. inversion H; subst.
      exists [Press (KeyChar c); Release (KeyChar c)]. now split.
    + intros H. apply IH in H. destruct H as (evs & -> & Hevs).
      exists (Press (KeyChar c) :: Release (KeyChar c) :: Sleep d :: evs).
      split; [|exact Hevs]. now rewrite logged_logged.
Qed.

Lemma typewrite_pynput_typing_only text d env o w r s' :
  _typewrite_pynput text d env (mkState o w) = (r, s') ->
  exists evs,
    s' = mkState (with_keyboard o) (logged w evs) /\ forallb is_typing_event evs = true.
Proof.
  unfold _typewrite_pynput.
  rewrite (bind_ok _ _ _ _ _ _ (ensure_keyboard_run env o w)).
  intros H. apply for_char_typing_only in H. destruct H as (evs & -> & Hevs).
  exists (controller_calls o ++ evs). rewrite logged_logged. split; [reflexivity|].
  rewrite forallb_app, Hevs. unfold controller_calls. now destruct (keyboard o).
Qed.

Lemma typing_no_copies evs : forallb is_typing_event evs = true -> copies evs = [].
Proof.
  induction evs as [|e evs IH]; [reflexivity|]. cbn [forallb]. intros H.
  apply andb_true_iff in H. destruct H as [He H].
  destruct e; try discriminate He; cbn [copies]; now apply IH.
Qed.

Lemma typing_no_modifier evs :
  forallb is_typing_event evs = true -> existsb is_modifier_event evs = false.
Proof.
  induction evs as [|e evs IH]; [reflexivity|]. cbn [forallb existsb]. intros H.
  apply andb_true_iff in H. destruct H as [He H]. rewrite (IH H).
  destruct e as [| | |k|k| | | | | | | |]; try discriminate He; try reflexivity;
    destruct k; try discriminate He; reflexivity.
Qed.

Lemma typing_no_clipboard_call evs :
  forallb is_typing_event evs = true -> existsb is_clipboard_call evs = false.
Proof.
  induction evs as [|e evs IH]; [reflexivity|]. cbn [forallb existsb]. intros H.
  apply andb_true_iff in H. destruct H as [He H]. rewrite (IH H).
  destruct e; try discriminate He; reflexivity.
Qed.

(** Diagnostic lines are neither clipboard calls nor key events. *)
Lemma copies_quiet evs : copies (quiet evs) = copies evs.
Proof.
  induction evs as [|e evs IH]; [reflexivity|].
  unfold quiet in *. destruct e; cbn [filter is_console_print negb copies]; now rewrite IH.
Qed.

Lemma modifier_quiet evs :
  existsb is_modifier_event (quiet evs) = existsb is_modifier_event evs.
Proof.
  induction evs as [|e evs IH]; [reflexivity|].
  unfold quiet in *.
  destruct e; cbn [filter is_console_print negb existsb is_modifier_event]; now rewrite IH.
Qed.

Lemma clipboard_call_quiet evs :
  existsb is_clipboard_call (quiet evs) = existsb is_clipboard_call evs.
Proof.
  induction evs as [|e evs IH]; [reflexivity|].
  unfold quiet in *.
  destruct e; cbn [filter is_console_print negb existsb is_clipboard_call]; now rewrite IH.
Qed.

Lemma copies_app evs evs' : copies (evs ++ evs') = copies evs ++ copies evs'.
Proof.
  induction evs as [|e evs IH]; [reflexivity|].
  destruct e; cbn [app copies]; now rewrite IH.
Qed.

(** The write failure path: the copy of the text raises.  What is left of
    the call is the direct-key typist on the whole text with the same
    interval. *)
Lemma typewrite_clipboard_copy_failure text i env o w exc :
  pyperclip_imported env = true ->
  copy_error env text = Some exc ->
  exists pre,
    quiet pre = controller_calls o ++ [ClipPaste; ClipCopy text]
    /\ _typewrite_clipboard text i env (mkState o w)
       = _typewrite_pynput text i env (mkState (with_keyboard o) (logged w pre)).
Proof.
  intros Himp Hcopy. open_state o w.
  unfold _typewrite_clipboard. exec.
  rewrite ensure_keyboard_run. exec_world.
  rewrite clipboard_modifier_key_run. exec_world.
  rewrite Himp. exec_world.
  use_run read_previous_clipboard_run.
  unfold pyperclip_copy. exec_world. rewrite Hcopy. exec_world.
  flat_trace.
  match goal with
  | |- context [_typewrite_pynput _ _ _ (mkState _ (mkWorld (tr ++ ?pre) _ _ _))] =>
      exists pre
  end.
  split.
  - destruct kb as [[]|]; reflexivity.
  - match goal with
    | |- context [_typewrite_pynput ?t ?d ?e ?st] =>
        destruct (_typewrite_pynput t d e st) as [[[]|err] s']
    end; reflexivity.
Qed.

(** The path without [pyperclip]: no clipboard call at all before the
    direct-key typist takes over. *)
Lemma typewrite_clipboard_no_pyperclip text i env o w :
  pyperclip_imported env = false ->
  exists pre,
    quiet pre = controller_calls o
    /\ _typewrite_clipboard text i env (mkState o w)
       = _typewrite_pynput text i env (mkState (with_keyboard o) (logged w pre)).
Proof.
  intros Himp. open_state o w.
  unfold _typewrite_clipboard. exec.
  rewrite ensure_keyboard_run. exec_world.
  rewrite clipboard_modifier_key_run. exec_world.
  rewrite Himp. exec_world.
  flat_trace.
  match goal with
  | |- context [_typewrite_pynput _ _ _ (mkState _ (mkWorld (tr ++ ?pre) _ _ _))] =>
      exists pre
  end.
  split.
  - destruct kb as [[]|]; reflexivity.
  - reflexivity.
Qed.

Lemma copies_paste_path o text m k vs :
  copies (controller_calls o
          ++ [ClipPaste; ClipCopy text; Sleep m; Press k; Press (KeyChar "v");
              Release (KeyChar "v"); Release k; Sleep m]
          ++ map ClipCopy vs)
  = text :: vs.
Proof.
  rewrite copies_app. unfold controller_calls.
  assert (E : copies (map ClipCopy vs) = vs).
  { induction vs as [|v vs IH]; [reflexivity|]. cbn [map copies]. now rewrite IH. }
  destruct (keyboard o); cbn [copies app]; now rewrite E.
Qed.

(** C5. On the clipboard path (pyperclip present, the copy of the text
    accepted), for every configured interval [i] the call returns and,
    diagnostic lines apart, makes these calls in this order: the snapshot
    read, the copy of the text, a sleep of [max(i, 0.02)], the paste hotkey
    (modifier down, "v" down, "v" up, modifier up), a sleep of the same
    [max(i, 0.02)], and then what the restore decision asks for.  That
    length is at least 0.02, at least [i], and one of the two. *)
Theorem C5_settle_delays (text : string) (env : environment) (s : state) :
  input_method (self s) = "clipboard" ->
  pyperclip_imported env = true ->
  copy_error env text = None ->
  let i := or_zero (config_writing_key_press_delay env) in
  let settle := pymax i (2 # 100) in
  exists new c,
    typewrite text env s
    = (Ok tt, mkState (with_keyboard (self s)) (logged_clip (outside s) new c))
    /\ quiet new
       = controller_calls (self s)
         ++ [ClipPaste; ClipCopy text;
             Sleep settle;
             Press (paste_modifier env); Press (KeyChar "v");
             Release (KeyChar "v"); Release (paste_modifier env);
             Sleep settle]
         ++ map ClipCopy (restore_copies (snapshot env (outside s)) text)
    /\ 2 # 100 <= settle /\ i <= settle /\ (settle = i \/ settle = 2 # 100).
Proof.
  intros Hm Himp Hcopy i settle.
  rewrite typewrite_dispatch_clipboard by exact Hm. destruct s as [o w].
  destruct (typewrite_clipboard_paste_path text i env o w Himp Hcopy) as (new & Hrun & Hq).
  exists new. eexists. split; [exact Hrun|]. split; [exact Hq|].
  split; [apply pymax_floor|]. split; [apply pymax_ge | apply pymax_cases].
Qed.

Lemma C5_settle_delays_witness :
  exists new c,
    typewrite "new" clipboard_env clipboard_state
    = (Ok tt, mkState (mkSim "clipboard" None (Some Controller))
                      (logged_clip (outside clipboard_state) new c))
    /\ quiet new
       = [] ++ [ClipPaste; ClipCopy "new";
                Sleep (2 # 100);
                Press Key_ctrl; Press (KeyChar "v");
                Release (KeyChar "v"); Release Key_ctrl;
                Sleep (2 # 100)]
         ++ [ClipCopy "old"]
    /\ 2 # 100 <= 2 # 100 /\ 1 # 100 <= 2 # 100
    /\ (2 # 100 = 1 # 100 \/ 2 # 100 = 2 # 100).
Proof.
  exact (C5_settle_delays "new" clipboard_env clipboard_state eq_refl eq_refl eq_refl).
Defined.

(** C2 (as amended). Take a [typewrite(T)] on the clipboard backend whose
    copy of [T] is accepted; it returns.  If the clipboard was readable and
    held a value [V] different from [T], the copies issued are that of [T]
    and then the restore copy of [V], and when the restore copy is accepted
    the clipboard holds [V] after the call.  If the clipboard held [T]
    already, or could not be read (the read raised, or returned nothing),
    the copy of [T] is the only copy issued. *)
Theorem C2_clipboard_restored (text : string) (env : environment) (s : state) :
  input_method (self s) = "clipboard" ->
  pyperclip_imported env = true ->
  copy_error env text = None ->
  exists new c,
    typewrite text env s
    = (Ok tt, mkState (with_keyboard (self s)) (logged_clip (outside s) new c))
    /\ (forall V,
           paste_error env = None -> clipboard (outside s) = Some V -> V <> text ->
           copies new = [text; V] /\ (copy_error env V = None -> c = Some V))
    /\ (clipboard (outside s) = Some text \/ clipboard (outside s) = None
        \/ paste_error env <> None ->
        copies new = [text] /\ c = Some text).
Proof.
  intros Hm Himp Hcopy.
  rewrite typewrite_dispatch_clipboard by exact Hm. destruct s as [o w].
  destruct (typewrite_clipboard_paste_path
              text (or_zero (config_writing_key_press_delay env)) env o w Himp Hcopy)
    as (new & Hrun & Hq).
  exists new. eexists. split; [exact Hrun|].
  assert (Hc : copies new = text :: restore_copies (snapshot env w) text).
  { rewrite <- copies_quiet, Hq. apply copies_paste_path. }
  cbn [outside]. split.
  - intros V Hpaste Hclip HV. unfold snapshot in *. rewrite Hpaste, Hclip in *.
    unfold restore_copies in *. apply String.eqb_neq in HV. rewrite HV in *.
    split; [exact Hc|]. cbn [fold_left]. unfold clipboard_after_copy.
    intros HcV. now rewrite HcV.
  - intros Hcase. unfold snapshot in *.
    assert (Hr : restore_copies
                   match paste_error env with Some _ => None | None => clipboard w end text
                 = []).
    { destruct Hcase as [Hclip|[Hclip|Hpaste]].
      - rewrite Hclip. destruct (paste_error env); [reflexivity|].
        unfold restore_copies. now rewrite String.eqb_refl.
      - rewrite Hclip. now destruct (paste_error env).
      - destruct (paste_error env); [reflexivity | now contradiction Hpaste]. }
    rewrite Hr in *. now split.
Qed.

Lemma C2_clipboard_restored_witness :
  exists new c,
    typewrite "new" clipboard_env clipboard_state
    = (Ok tt, mkState (mkSim "clipboard" None (Some Controller))
                      (logged_clip (outside clipboard_state) new c))
    /\ copies new = ["new"; "old"]
    /\ c = Some "old".
Proof.
  destruct (C2_clipboard_restored "new" clipboard_env clipboard_state
              eq_refl eq_refl eq_refl) as (new & c & Hrun & Hrestore & _).
  destruct (Hrestore "old" eq_refl eq_refl) as [Hcopies Hclip]; [discriminate|].
  exists new, c. split; [exact Hrun | split; [exact Hcopies | exact (Hclip eq_refl)]].
Defined.

(** C2 (counterexample). A call that returns normally need not restore the
    clipboard.  The simulator is the one constructed with "old" on the
    clipboard, and the text is "new".  When the clipboard accepts "new"
    and refuses everything else, the call returns, the restore copy of
    "old" has been issued, and the clipboard holds "new".  When the
    clipboard refuses every write, the call returns after the fallback and
    no restore copy has been issued. *)
Lemma C2_refused_restore_counterexample :
  construct clipboard_env (mkWorld [] (Some "old") [] 1)
  = (Ok (self clipboard_state), outside clipboard_state)
  /\ fst (typewrite "new" one_way_clipboard_env clipboard_state) = Ok tt
  /\ copies (trace (outside (snd (typewrite "new" one_way_clipboard_env clipboard_state))))
     = ["new"; "old"]
  /\ clipboard (outside (snd (typewrite "new" one_way_clipboard_env clipboard_state)))
     = Some "new"
  /\ fst (typewrite "new" read_only_clipboard_env clipboard_state) = Ok tt
  /\ copies (trace (outside (snd (typewrite "new" read_only_clipboard_env clipboard_state))))
     = ["new"].
Proof. repeat split. Qed.

Lemma modifier_app evs evs' :
  existsb is_modifier_event (evs ++ evs')
  = existsb is_modifier_event evs || existsb is_modifier_event evs'.
Proof. apply existsb_app. Qed.

(** What a fallback run adds to the trace: the calls [pre] made before the
    direct-key typist took over, then typing calls only. *)
Lemma fallback_trace text i env o w pre :
  exists evs,
    trace (outside (snd (_typewrite_pynput text i env
                           (mkState (with_keyboard o) (logged w pre)))))
    = trace w ++ pre ++ evs
    /\ forallb is_typing_event evs = true.
Proof.
  destruct (_typewrite_pynput text i env (mkState (with_keyboard o) (logged w pre)))
    as [r s'] eqn:E.
  apply typewrite_pynput_typing_only in E. destruct E as (evs & -> & Hevs).
  exists evs. split; [|exact Hevs].
  cbn [snd outside]. unfold logged. cbn [trace]. now rewrite app_assoc.
Qed.

(** C3. When [pyperclip.copy(T)] raises its exception during a
    clipboard-backend [typewrite(T)], the rest of the call is the
    direct-key typist applied to the whole of [T] with the configured
    interval: for a non-negative interval the call returns after the
    keystrokes of every character of [T].  Whatever the interval, the failed
    copy of [T] is the only copy attempted (no restore copy) and no paste
    modifier is pressed or released (no paste hotkey). *)
Theorem C3_copy_failure_falls_back (text exc : string) (env : environment) (s : state) :
  input_method (self s) = "clipboard" ->
  pyperclip_imported env = true ->
  copy_error env text = Some exc ->
  let i := or_zero (config_writing_key_press_delay env) in
  exists pre,
    quiet pre = controller_calls (self s) ++ [ClipPaste; ClipCopy text]
    /\ typewrite text env s
       = _typewrite_pynput text i env
           (mkState (with_keyboard (self s)) (logged (outside s) pre))
    /\ (0 <= i ->
        typewrite text env s
        = (Ok tt, mkState (with_keyboard (self s))
                          (logged (outside s) (pre ++ keystrokes text i))))
    /\ (exists new,
           trace (outside (snd (typewrite text env s))) = trace (outside s) ++ new
           /\ copies new = [text]
           /\ existsb is_modifier_event new = false).
Proof.
  intros Hm Himp Hcopy. cbv zeta.
  rewrite typewrite_dispatch_clipboard by exact Hm. destruct s as [o w]. cbn [self outside].
  generalize (or_zero (config_writing_key_press_delay env)). intros i.
  destruct (typewrite_clipboard_copy_failure text i env o w exc Himp Hcopy)
    as (pre & Hq & Hrun).
  exists pre. split; [exact Hq|]. split; [exact Hrun|]. split.
  - intros Hi. rewrite Hrun, typewrite_pynput_run by exact Hi.
    rewrite logged_logged. unfold with_keyboard, controller_calls. cbn [input_method
      dotool_process keyboard app]. reflexivity.
  - rewrite Hrun. destruct (fallback_trace text i env o w pre) as (evs & Htr & Hevs).
    exists (pre ++ evs). split; [exact Htr|]. split.
    + rewrite copies_app, (typing_no_copies evs Hevs), app_nil_r.
      rewrite <- copies_quiet, Hq, copies_app.
      unfold controller_calls. now destruct (keyboard o).
    + rewrite modifier_app, (typing_no_modifier evs Hevs), orb_false_r.
      rewrite <- modifier_quiet, Hq, modifier_app.
      unfold controller_calls. now destruct (keyboard o).
Qed.

Lemma C3_copy_failure_falls_back_witness :
  exists pre,
    quiet pre = [ClipPaste; ClipCopy "new"]
    /\ typewrite "new" read_only_clipboard_env clipboard_state
       = (Ok tt, mkState (mkSim "clipboard" None (Some Controller))
                         (logged (outside clipboard_state)
                                 (pre ++ keystrokes "new" (1 # 100)))).
Proof.
  destruct (C3_copy_failure_falls_back "new" "could not open clipboard"
              read_only_clipboard_env clipboard_state eq_refl eq_refl eq_refl)
    as (pre & Hq & _ & Hrun & _).
  exists pre. split; [exact Hq|]. apply Hrun. discriminate.
Defined.

(** C10. When the clipboard library failed to import, a clipboard-backend
    [typewrite(T)] is, after its diagnostic lines and the creation of the
    emitter if there is none, the direct-key typist applied to the whole of
    [T] with the configured interval: for a non-negative interval the call
    returns after the keystrokes of every character of [T].  Whatever the
    interval, the call makes no clipboard read and no clipboard write, and
    no paste modifier is pressed or released. *)
Theorem C10_no_pyperclip_falls_back (text : string) (env : environment) (s : state) :
  input_method (self s) = "clipboard" ->
  pyperclip_imported env = false ->
  let i := or_zero (config_writing_key_press_delay env) in
  exists pre,
    quiet pre = controller_calls (self s)
    /\ typewrite text env s
       = _typewrite_pynput text i env
           (mkState (with_keyboard (self s)) (logged (outside s) pre))
    /\ (0 <= i ->
        typewrite text env s
        = (Ok tt, mkState (with_keyboard (self s))
                          (logged (outside s) (pre ++ keystrokes text i))))
    /\ (exists new,
           trace (outside (snd (typewrite text env s))) = trace (outside s) ++ new
           /\ existsb is_clipboard_call new = false
           /\ existsb is_modifier_event new = false).
Proof.
  intros Hm Himp. cbv zeta.
  rewrite typewrite_dispatch_clipboard by exact Hm. destruct s as [o w]. cbn [self outside].
  generalize (or_zero (config_writing_key_press_delay env)). intros i.
  destruct (typewrite_clipboard_no_pyperclip text i env o w Himp) as (pre & Hq & Hrun).
  exists pre. split; [exact Hq|]. split; [exact Hrun|]. split.
  - intros Hi. rewrite Hrun, typewrite_pynput_run by exact Hi.
    rewrite logged_logged. unfold with_keyboard, controller_calls. cbn [input_method
      dotool_process keyboard app]. reflexivity.
  - rewrite Hrun. destruct (fallback_trace text i env o w pre) as (evs & Htr & Hevs).
    exists (pre ++ evs). split; [exact Htr|]. split.
    + rewrite existsb_app, (typing_no_clipboard_call evs Hevs), orb_false_r.
      rewrite <- clipboard_call_quiet, Hq.
      unfold controller_calls. now destruct (keyboard o).
    + rewrite modifier_app, (typing_no_modifier evs Hevs), orb_false_r.
      rewrite <- modifier_quiet, Hq.
      unfold controller_calls. now destruct (keyboard o).
Qed.

Lemma C10_no_pyperclip_falls_back_witness :
  exists pre,
    quiet pre = []
    /\ typewrite "new" no_pyperclip_env clipboard_state
       = (Ok tt, mkState (mkSim "clipboard" None (Some Controller))
                         (logged (outside clipboard_state)
                                 (pre ++ keystrokes "new" (1 # 100)))).
Proof.
  destruct (C10_no_pyperclip_falls_back "new" no_pyperclip_env clipboard_state
              eq_refl eq_refl) as (pre & Hq & _ & Hrun & _).
  exists pre. split; [exact Hq|]. apply Hrun. discriminate.
Defined.

(** ** The process handle over a session *)

Lemma keeps_ret {A} (a : A) : keeps_process (ret a).
Proof. intros env s r s' H. unfold ret in H. inversion H. auto. Qed.

Lemma keeps_raise {A} (e : exn) : keeps_process (@raise A e).
Proof. intros env s r s' H. unfold raise in H. inversion H. auto. Qed.

Lemma keeps_bind {A B} (m : M A) (k : A -> M B) :
  keeps_process m -> (forall a, keeps_process (k a)) -> keeps_process (bind m k).
Proof.
  intros Hm Hk env s r s'. unfold bind.
  destruct (m env s) as [[a|e] s1] eqn:E; intros H.
  - destruct (Hm _ _ _ _ E) as (H1 & H2 & H3).
    destruct (Hk a _ _ _ _ H) as (H4 & H5 & H6).
    repeat split; congruence.
  - inversion H; subst. exact (Hm _ _ _ _ E).
Qed.

Lemma keeps_try_except {A} (body : M A) (handler : exn -> option (M A)) :
  keeps_process body ->
  (forall e k, handler e = Some k -> keeps_process k) ->
  keeps_process (try_except body handler).
Proof.
  intros Hb Hh env s r s'. unfold try_except.
  destruct (body env s) as [[a|e] s1] eqn:E; intros H.
  - inversion H; subst. exact (Hb _ _ _ _ E).
  - destruct (Hb _ _ _ _ E) as (H1 & H2 & H3).
    destruct (handler e) as [k|] eqn:Ek.
    + destruct (Hh e k Ek _ _ _ _ H) as (H4 & H5 & H6). repeat split; congruence.
    + inversion H; subst. auto.
Qed.

Lemma keeps_ask : keeps_process ask.
Proof. intros env s r s' H. unfold ask in H. inversion H. auto. Qed.

Lemma keeps_get_self : keeps_process get_self.
Proof. intros env s r s' H. unfold get_self in H. inversion H. auto. Qed.

Lemma keeps_get_world : keeps_process get_world.
Proof. intros env s r s' H. unfold get_world in H. inversion H. auto. Qed.

Lemma keeps_emit e : keeps_process (emit e).
Proof. intros env [o w] r s' H. rewrite emit_run in H. inversion H. auto. Qed.

Lemma keeps_set_keyboard k : keeps_process (set_keyboard k).
Proof. intros env [o w] r s' H. unfold set_keyboard in H. revert H. exec. intros H. inversion H. auto. Qed.

Lemma keeps_pyperclip_copy v : keeps_process (pyperclip_copy v).
Proof.
  intros env [o w] r s'. unfold pyperclip_copy. exec.
  destruct (copy_error env v); exec; intros H; inversion H; auto.
Qed.

Create HintDb keeps.
#[local] Hint Resolve keeps_ret keeps_raise keeps_ask keeps_get_self keeps_get_world
  keeps_emit keeps_set_keyboard keeps_pyperclip_copy : keeps.

(** Take a computation apart along its binds and branches. *)
Ltac keeps_step :=
  match goal with
  | |- keeps_process (bind _ _) => apply keeps_bind; [|intros ?]
  | |- keeps_process (try_except _ _) =>
      apply keeps_try_except;
      [|let e := fresh "e" in
        let k := fresh "k" in
        let H := fresh "H" in
        intros e k H; destruct e; inversion H; subst; clear H]
  | |- keeps_process (match ?x with _ => _ end) => destruct x
  | |- keeps_process _ => solve [auto with keeps]
  end.

Ltac keeps_all := repeat keeps_step.

Lemma keeps_time_sleep d : keeps_process (time_sleep d).
Proof. unfold time_sleep. keeps_all. Qed.

Lemma keeps_ensure_keyboard : keeps_process ensure_keyboard.
Proof. unfold ensure_keyboard, new_PynputController. keeps_all. Qed.

#[local] Hint Resolve keeps_time_sleep keeps_ensure_keyboard : keeps.

Lemma keeps_for_char text body :
  (forall c, keeps_process (body c)) -> keeps_process (for_char text body).
Proof.
  intros Hb. induction text as [|c rest IH]; cbn [for_char].
  - apply keeps_ret.
  - apply keeps_bind; [apply Hb | intros _; exact IH].
Qed.

Lemma keeps_typewrite_pynput text d : keeps_process (_typewrite_pynput text d).
Proof.
  unfold _typewrite_pynput. apply keeps_bind; [auto with keeps|]. intros _.
  apply keeps_for_char. intros c. unfold keyboard_press, keyboard_release. keeps_all.
Qed.

#[local] Hint Resolve keeps_typewrite_pynput : keeps.

Lemma keeps_typewrite_clipboard text d : keeps_process (_typewrite_clipboard text d).
Proof.
  unfold _typewrite_clipboard, _clipboard_modifier_key, read_previous_clipboard,
    pyperclip_paste, paste_and_restore, restore_clipboard, console_print,
    keyboard_press, keyboard_release.
  keeps_all.
Qed.

Lemma keeps_typewrite_ydotool text d : keeps_process (_typewrite_ydotool text d).
Proof.
  unfold _typewrite_ydotool, run_command_or_exit_on_failure, subprocess_run, print, exit.
  keeps_all.
Qed.

Lemma keeps_typewrite_dotool text d : keeps_process (_typewrite_dotool text d).
Proof. unfold _typewrite_dotool, stdin_write, stdin_flush. keeps_all. Qed.

(** [typewrite] never touches the process handle: whatever the method and
    whether the call returns or raises. *)
Lemma keeps_typewrite text : keeps_process (typewrite text).
Proof.
  unfold typewrite. keeps_all;
    auto using keeps_typewrite_clipboard, keeps_typewrite_ydotool,
      keeps_typewrite_dotool with keeps.
Qed.

(** The three parts of the invariant on a state that is written out. *)
Ltac invariant_parts :=
  unfold session_invariant, handle_children;
  cbn [self outside children dotool_process input_method pid List.length];
  repeat split; try lia; try congruence;
  try (let H := fresh in intros [H _]; congruence);
  try (let H := fresh in intros [_ H]; congruence).

(** Construction establishes the invariant. *)
Lemma construct_invariant env w o w' :
  children w = [] ->
  construct env w = (Ok o, w') ->
  session_invariant false (mkState o w').
Proof.
  intros Hch. destruct w as [tr cb ch np]. cbn [children] in Hch. subst ch.
  unfold construct, __init__. exec.
  destruct (config_input_method env =? "pynput")%string eqn:E1;
    [|destruct (config_input_method env =? "clipboard")%string eqn:E2];
    cbn [orb]; unfold new_PynputController; exec.
  - apply String.eqb_eq in E1. intros H. inversion H; subst. rewrite E1.
    invariant_parts.
  - apply String.eqb_eq in E2. intros H. inversion H; subst. rewrite E2.
    invariant_parts.
  - destruct (config_input_method env =? "dotool")%string eqn:E3.
    + apply String.eqb_eq in E3.
      unfold _initialize_dotool, subprocess_Popen. exec.
      destruct (on_path env "dotool"); exec; intros H; inversion H; subst.
      rewrite E3. invariant_parts.
    + apply String.eqb_neq in E3. exec. intros H. inversion H; subst.
      invariant_parts.
Qed.

(** [cleanup] keeps the invariant and sets the flag. *)
Lemma cleanup_invariant cleaned env s r s' :
  session_invariant cleaned s ->
  cleanup env s = (r, s') ->
  session_invariant true s'.
Proof.
  intros (Hch & Hlen & Hiff) Hrun. destruct s as [o w].
  cbn [self outside] in *. unfold handle_children in Hch.
  destruct (dotool_process o) as [p|] eqn:Hp.
  - assert (Hm : input_method o = "dotool") by (apply Hiff; discriminate).
    rewrite (cleanup_alive env o w p Hm Hp) in Hrun. inversion Hrun; subst.
    rewrite Hch. cbn [remove].
    destruct (Nat.eq_dec (pid p) (pid p)) as [_|Hne]; [|now contradiction Hne].
    invariant_parts.
  - rewrite (cleanup_without_process env (mkState o w) Hp) in Hrun. inversion Hrun; subst.
    unfold session_invariant, handle_children. cbn [self outside]. rewrite Hp, Hch.
    invariant_parts.
Qed.

(** [typewrite] keeps the invariant. *)
Lemma typewrite_invariant cleaned text env s r s' :
  session_invariant cleaned s ->
  typewrite text env s = (r, s') ->
  session_invariant cleaned s'.
Proof.
  intros (Hch & Hlen & Hiff) Hrun.
  destruct (keeps_typewrite text env s r s' Hrun) as (Hm & Hp & Hc).
  unfold session_invariant, handle_children in *. now rewrite Hm, Hp, Hc.
Qed.

(** C8. In every state of a session (after construction and after any
    sequence of [typewrite] and [cleanup] calls, returning or raising)
    the child processes of the simulator are exactly the one behind its
    handle, so there is at most one; and the handle is set iff the method
    is dotool and [cleanup] has not been called yet. *)
Theorem C8_process_handle_invariant (cleaned : bool) (s : state) :
  reachable cleaned s -> session_invariant cleaned s.
Proof.
  induction 1 as [env w w' o Hch Hc | cleaned s s' env text r _ IH Hrun
                 | cleaned s s' env r _ IH Hrun].
  - exact (construct_invariant env w o w' Hch Hc).
  - exact (typewrite_invariant cleaned text env s r s' IH Hrun).
  - exact (cleanup_invariant cleaned env s r s' IH Hrun).
Qed.

Lemma C8_process_handle_invariant_witness :
  session_invariant false
    (mkState (mkSim "dotool" (Some (mkPopen 1 true)) None)
             (mkWorld [Spawn "dotool" 1;
                       PipeWrite 1 ("typedelay 50.0" ++ nl);
                       PipeWrite 1 ("type hi" ++ nl);
                       PipeFlush 1] None [1%nat] 2))
  /\ session_invariant true
       (mkState (mkSim "dotool" None None)
                (mkWorld [Spawn "dotool" 1;
                          PipeWrite 1 ("typedelay 50.0" ++ nl);
                          PipeWrite 1 ("type hi" ++ nl);
                          PipeFlush 1; Kill 1] None [] 2)).
Proof.
  assert (R : reachable false
                (mkState (mkSim "dotool" (Some (mkPopen 1 true)) None)
                         (mkWorld [Spawn "dotool" 1;
                                   PipeWrite 1 ("typedelay 50.0" ++ nl);
                                   PipeWrite 1 ("type hi" ++ nl);
                                   PipeFlush 1] None [1%nat] 2))).
  { apply (reach_typewrite false
             (mkState (mkSim "dotool" (Some (mkPopen 1 true)) None)
                      (mkWorld [Spawn "dotool" 1] None [1%nat] 2))
             _ (working_env "dotool" (Some (5 # 100))) "hi" (Ok tt)).
    - apply (reach_construct (working_env "dotool" (Some (5 # 100))) empty_world);
        reflexivity.
    - reflexivity. }
  split.
  - apply C8_process_handle_invariant. exact R.
  - apply C8_process_handle_invariant.
    apply (reach_cleanup false _ _ (working_env "dotool" (Some (5 # 100))) (Ok tt) R).
    reflexivity.
Defined.

(** ** Worked scenarios of the specification *)

Example decimal_str_50 : decimal_str ((5 # 100) * 1000) = "50.0".
Proof. reflexivity. Qed.

Example decimal_str_002 : decimal_str (2 # 100) = "0.02".
Proof. reflexivity. Qed.

(** Scenario: delay 0.05 s, text "hi", direct-key method. *)
Example scenario_direct_key :
  let env := working_env "pynput" (Some (5 # 100)) in
  match construct env empty_world with
  | (Ok o, w) =>
      trace (outside (snd (typewrite "hi" env (mkState o w)))) =
      [NewController;
       Press (KeyChar "h"); Release (KeyChar "h"); Sleep (5 # 100);
       Press (KeyChar "i"); Release (KeyChar "i"); Sleep (5 # 100)]
  | _ => False
  end.
Proof. reflexivity. Qed.

(** Scenario: clipboard method, prior clipboard "old", text "new", delay 0.01 s. *)
Example scenario_clipboard :
  let env := working_env "clipboard" (Some (1 # 100)) in
  match construct env (mkWorld [] (Some "old") [] 1) with
  | (Ok o, w) =>
      let s' := snd (typewrite "new" env (mkState o w)) in
      quiet (trace (outside s')) =
      [NewController; ClipPaste; ClipCopy "new"; Sleep (2 # 100);
       Press Key_ctrl; Press (KeyChar "v"); Release (KeyChar "v"); Release Key_ctrl;
       Sleep (2 # 100); ClipCopy "old"]
      /\ clipboard (outside s') = Some "old"
  | _ => False
  end.
Proof. split; reflexivity. Qed.

(** * Further properties of the code *)

(** ** A frame rule for traces *)

Section Frames.

Variable I : InputSimulator -> option string -> Prop.
Variable P : event -> bool.

Lemma respects_ret {A} (a : A) : respects I P (ret a).
Proof.
  intros env s r s' HI H. unfold ret in H. inversion H; subst.
  split; [exact HI|]. exists []. now rewrite app_nil_r.
Qed.

Lemma respects_raise {A} (e : exn) : respects I P (@raise A e).
Proof.
  intros env s r s' HI H. unfold raise in H. inversion H; subst.
  split; [exact HI|]. exists []. now rewrite app_nil_r.
Qed.

Lemma respects_ask : respects I P ask.
Proof.
  intros env s r s' HI H. unfold ask in H. inversion H; subst.
  split; [exact HI|]. exists []. now rewrite app_nil_r.
Qed.

Lemma respects_get_self : respects I P get_self.
Proof.
  intros env s r s' HI H. unfold get_self in H. inversion H; subst.
  split; [exact HI|]. exists []. now rewrite app_nil_r.
Qed.

Lemma respects_get_world : respects I P get_world.
Proof.
  intros env s r s' HI H. unfold get_world in H. inversion H; subst.
  split; [exact HI|]. exists []. now rewrite app_nil_r.
Qed.

Lemma respects_emit e : P e = true -> respects I P (emit e).
Proof.
  intros HP env [o w] r s' HI H. rewrite emit_run in H. inversion H; subst.
  split; [exact HI|]. exists [e]. split; [reflexivity|]. cbn [forallb]. now rewrite HP.
Qed.

Lemma respects_bind {A B} (m : M A) (k : A -> M B) :
  respects I P m -> (forall a, respects I P (k a)) -> respects I P (bind m k).
Proof.
  intros Hm Hk env s r s' HI. unfold bind.
  destruct (m env s) as [[a|e] s1] eqn:E; intros H.
  - destruct (Hm _ _ _ _ HI E) as (HI1 & new1 & Ht1 & HP1).
    destruct (Hk a _ _ _ _ HI1 H) as (HI2 & new2 & Ht2 & HP2).
    split; [exact HI2|]. exists (new1 ++ new2).
    split; [now rewrite Ht2, Ht1, app_assoc | now rewrite forallb_app, HP1, HP2].
  - inversion H; subst. exact (Hm _ _ _ _ HI E).
Qed.

Lemma respects_try_except {A} (body : M A) (handler : exn -> option (M A)) :
  respects I P body ->
  (forall e k, handler e = Some k -> respects I P k) ->
  respects I P (try_except body handler).
Proof.
  intros Hb Hh env s r s' HI. unfold try_except.
  destruct (body env s) as [[a|e] s1] eqn:E; intros H.
  - inversion H; subst. exact (Hb _ _ _ _ HI E).
  - destruct (Hb _ _ _ _ HI E) as (HI1 & new1 & Ht1 & HP1).
    destruct (handler e) as [k|] eqn:Ek.
    + destruct (Hh e k Ek _ _ _ _ HI1 H) as (HI2 & new2 & Ht2 & HP2).
      split; [exact HI2|]. exists (new1 ++ new2).
      split; [now rewrite Ht2, Ht1, app_assoc | now rewrite forallb_app, HP1, HP2].
    + inversion H; subst. split; [exact HI1|]. now exists new1.
Qed.

Lemma respects_for_char text body :
  (forall c, respects I P (body c)) -> respects I P (for_char text body).
Proof.
  intros Hb. induction text as [|c rest IH]; cbn [for_char].
  - apply respects_ret.
  - apply respects_bind; [apply Hb | intros _; exact IH].
Qed.

Lemma respects_time_sleep d : P (Sleep d) = true -> respects I P (time_sleep d).
Proof.
  intros HP. unfold time_sleep.
  destruct (Qltb d 0); [apply respects_raise | now apply respects_emit].
Qed.

(** A clipboard write, where [I] does not look at the clipboard. *)
Lemma respects_pyperclip_copy v :
  P (ClipCopy v) = true ->
  (forall o c, I o c -> I o (Some v)) ->
  respects I P (pyperclip_copy v).
Proof.
  intros HP Hc env [o w] r s' HI. unfold pyperclip_copy. exec.
  destruct (copy_error env v); exec; intros H; inversion H; subst;
    cbn [self outside clipboard trace] in *.
  - split; [exact HI|]. exists [ClipCopy v]. split; [reflexivity|].
    cbn [forallb]. now rewrite HP.
  - split; [exact (Hc _ _ HI)|]. exists [ClipCopy v]. split; [reflexivity|].
    cbn [forallb]. now rewrite HP.
Qed.

(** With an emitter in place nothing is created. *)
Lemma respects_ensure_keyboard_present :
  (forall o c, I o c -> keyboard o <> None) -> respects I P ensure_keyboard.
Proof.
  intros Hk env [o w] r s' HI. rewrite ensure_keyboard_run. intros H.
  inversion H; subst. cbn [self outside clipboard trace] in *.
  pose proof (Hk _ _ HI) as Hkb.
  destruct o as [im dp [[]|]]; [|now contradiction Hkb].
  unfold with_keyboard, controller_calls, logged. cbn.
  split; [exact HI|]. exists []. now rewrite app_nil_r.
Qed.

(** Creating the emitter, where [I] allows it. *)
Lemma respects_ensure_keyboard_create :
  P NewController = true ->
  (forall o c, I o c -> I (with_keyboard o) c) ->
  respects I P ensure_keyboard.
Proof.
  intros HP Hk env [o w] r s' HI. rewrite ensure_keyboard_run. intros H.
  inversion H; subst. cbn [self outside clipboard trace logged] in *.
  split; [exact (Hk _ _ HI)|]. exists (controller_calls o). split; [reflexivity|].
  unfold controller_calls. destruct (keyboard o); cbn [forallb]; [reflexivity|].
  now rewrite HP.
Qed.

End Frames.

(** Take a computation apart along its binds and branches; the conditions
    on [P] and [I] are closed by computation. *)
Ltac respects_step :=
  match goal with
  | |- respects _ _ (bind _ _) => apply respects_bind; [|intros ?]
  | |- respects _ _ (try_except _ _) =>
      apply respects_try_except;
      [|let e := fresh "e" in
        let k := fresh "k" in
        let H := fresh "H" in
        intros e k H; destruct e; inversion H; subst; clear H]
  | |- respects _ _ (ret _) => apply respects_ret
  | |- respects _ _ (raise _) => apply respects_raise
  | |- respects _ _ ask => apply respects_ask
  | |- respects _ _ get_self => apply respects_get_self
  | |- respects _ _ get_world => apply respects_get_world
  | |- respects _ _ (emit _) => apply respects_emit; reflexivity
  | |- respects _ _ (time_sleep _) => apply respects_time_sleep; reflexivity
  | |- respects _ _ (pyperclip_copy _) =>
      apply respects_pyperclip_copy; [reflexivity | intros ? ? ?; assumption]
  | |- respects _ _ (for_char _ _) => apply respects_for_char; intros ?
  | |- respects _ _ ensure_keyboard =>
      first [ apply respects_ensure_keyboard_create;
              [reflexivity | intros ? ? ?; assumption]
            | apply respects_ensure_keyboard_present; intros ? ? ?; assumption ]
  | |- respects _ _ (match ?x with _ => _ end) => destruct x
  end.

Ltac respects_all :=
  unfold _typewrite_clipboard, _typewrite_pynput, _typewrite_ydotool, _typewrite_dotool,
    _clipboard_modifier_key, read_previous_clipboard, pyperclip_paste, paste_and_restore,
    restore_clipboard, run_command_or_exit_on_failure, subprocess_run,
    console_print, print, exit, keyboard_press, keyboard_release, stdin_write, stdin_flush;
  repeat respects_step.

Lemma forallb_negb_existsb {A} (Q : A -> bool) (l : list A) :
  forallb (fun e => negb (Q e)) l = true -> existsb Q l = false.
Proof.
  induction l as [|e l IH]; [reflexivity|]. cbn [forallb existsb]. intros H.
  apply andb_true_iff in H. destruct H as [He Hl]. rewrite (IH Hl).
  now destruct (Q e).
Qed.

Lemma respects_typewrite_lifecycle text :
  respects (fun _ _ => True) (fun e => negb (is_process_event e)) (typewrite text).
Proof. unfold typewrite. respects_all. Qed.

(** X1. No [typewrite], on any backend and whether it returns or raises,
    starts or signals a child process: the method, the process handle and
    the child processes are what they were, the trace is the old one with
    new calls after it, and none of the new calls is a spawn or a signal. *)
Theorem typewrite_leaves_process_alone (text : string) (env : environment)
    (s s' : state) (r : result unit) :
  typewrite text env s = (r, s') ->
  input_method (self s') = input_method (self s)
  /\ dotool_process (self s') = dotool_process (self s)
  /\ children (outside s') = children (outside s)
  /\ exists new,
       trace (outside s') = trace (outside s) ++ new
       /\ existsb is_process_event new = false.
Proof.
  intros H. destruct (keeps_typewrite text env s r s' H) as (H1 & H2 & H3).
  destruct (respects_typewrite_lifecycle text env s r s' Logic.I H) as (_ & new & Ht & HP).
  repeat split; try assumption. exists new. split; [exact Ht|].
  now apply forallb_negb_existsb.
Qed.

Lemma typewrite_leaves_process_alone_witness :
  input_method (self (snd (typewrite "hi" (working_env "dotool" (Some (5 # 100)))
                             dotool_state))) = "dotool"
  /\ dotool_process (self (snd (typewrite "hi" (working_env "dotool" (Some (5 # 100)))
                                  dotool_state))) = Some (mkPopen 1 true)
  /\ children (outside (snd (typewrite "hi" (working_env "dotool" (Some (5 # 100)))
                               dotool_state))) = [1%nat].
Proof.
  destruct (typewrite_leaves_process_alone "hi" (working_env "dotool" (Some (5 # 100)))
              dotool_state _ _ (surjective_pairing _)) as (H1 & H2 & H3 & _).
  split; [exact H1 | split; [exact H2 | exact H3]].
Defined.

Lemma respects_pynput_clipboard c0 text d :
  respects (fun _ c => c = c0) (fun e => negb (is_clipboard_call e))
           (_typewrite_pynput text d).
Proof. respects_all. Qed.

Lemma respects_ydotool_clipboard c0 text d :
  respects (fun _ c => c = c0) (fun e => negb (is_clipboard_call e))
           (_typewrite_ydotool text d).
Proof. respects_all. Qed.

Lemma respects_dotool_clipboard c0 text d :
  respects (fun _ c => c = c0) (fun e => negb (is_clipboard_call e))
           (_typewrite_dotool text d).
Proof. respects_all. Qed.

(** The branch [typewrite] takes. *)
Lemma typewrite_dispatch text env s :
  typewrite text env s
  = let interval := or_zero (config_writing_key_press_delay env) in
    if (input_method (self s) =? "pynput")%string then _typewrite_pynput text interval env s
    else if (input_method (self s) =? "clipboard")%string
         then _typewrite_clipboard text interval env s
    else if (input_method (self s) =? "ydotool")%string
         then _typewrite_ydotool text interval env s
    else if (input_method (self s) =? "dotool")%string
         then _typewrite_dotool text interval env s
    else (Ok tt, s).
Proof.
  unfold typewrite. exec.
  destruct (input_method (self s) =? "pynput")%string; [reflexivity|].
  destruct (input_method (self s) =? "clipboard")%string; [reflexivity|].
  destruct (input_method (self s) =? "ydotool")%string; [reflexivity|].
  now destruct (input_method (self s) =? "dotool")%string.
Qed.

(** X2. Only the clipboard backend touches the clipboard: on any other
    method a [typewrite], returning or raising, leaves the clipboard as it
    was and makes neither a [paste] nor a [copy] call. *)
Theorem other_backends_leave_clipboard (text : string) (env : environment)
    (s s' : state) (r : result unit) :
  input_method (self s) <> "clipboard" ->
  typewrite text env s = (r, s') ->
  clipboard (outside s') = clipboard (outside s)
  /\ exists new,
       trace (outside s') = trace (outside s) ++ new
       /\ existsb is_clipboard_call new = false.
Proof.
  intros Hm. rewrite typewrite_dispatch. cbv zeta.
  apply String.eqb_neq in Hm. rewrite Hm.
  assert (K : forall m : M unit,
             respects (fun _ c => c = clipboard (outside s))
                      (fun e => negb (is_clipboard_call e)) m ->
             m env s = (r, s') ->
             clipboard (outside s') = clipboard (outside s)
             /\ exists new,
                  trace (outside s') = trace (outside s) ++ new
                  /\ existsb is_clipboard_call new = false).
  { intros m R H. destruct (R env s r s' eq_refl H) as (Hc & new & Ht & HP).
    split; [exact Hc|]. exists new. split; [exact Ht|]. now apply forallb_negb_existsb. }
  destruct (input_method (self s) =? "pynput")%string;
    [apply K, respects_pynput_clipboard|].
  destruct (input_method (self s) =? "ydotool")%string;
    [apply K, respects_ydotool_clipboard|].
  destruct (input_method (self s) =? "dotool")%string;
    [apply K, respects_dotool_clipboard|].
  intros H. inversion H; subst. split; [reflexivity|]. exists []. now rewrite app_nil_r.
Qed.

Lemma other_backends_leave_clipboard_witness :
  clipboard (outside (snd (typewrite "hi" (working_env "pynput" (Some (5 # 100)))
                             (mkState (mkSim "pynput" None (Some Controller))
                                      (mkWorld [NewController] (Some "old") [] 1)))))
  = Some "old".
Proof.
  refine (proj1 (other_backends_leave_clipboard "hi" (working_env "pynput" (Some (5 # 100)))
                   (mkState (mkSim "pynput" None (Some Controller))
                            (mkWorld [NewController] (Some "old") [] 1))
                   _ _ _ (surjective_pairing _))).
  discriminate.
Defined.

(** ** The emitter and the pipe over a session *)

Lemma respects_typewrite_emitter text :
  respects (fun o _ => keyboard o <> None) (fun e => negb (is_NewController e))
           (typewrite text).
Proof. unfold typewrite. respects_all. Qed.

Lemma respects_ydotool_object o0 P text d :
  (forall e, P e = true) -> respects (fun o _ => o = o0) P (_typewrite_ydotool text d).
Proof.
  intros HP.
  unfold _typewrite_ydotool, run_command_or_exit_on_failure, subprocess_run, print, exit.
  repeat first [ apply respects_emit; apply HP | respects_step ].
Qed.

Lemma respects_dotool_object o0 P text d :
  (forall e, P e = true) -> respects (fun o _ => o = o0) P (_typewrite_dotool text d).
Proof.
  intros HP. unfold _typewrite_dotool, stdin_write, stdin_flush.
  repeat first [ apply respects_emit; apply HP | respects_step ].
Qed.

(** Off the emitter backends [typewrite] does not change the object. *)
Lemma typewrite_other_object text env s r s' :
  ~ In (input_method (self s)) emitter_methods ->
  typewrite text env s = (r, s') ->
  self s' = self s.
Proof.
  intros Hm. rewrite typewrite_dispatch. cbv zeta.
  unfold emitter_methods in Hm. cbn [In] in Hm.
  assert (E1 : (input_method (self s) =? "pynput")%string = false)
    by (apply String.eqb_neq; intros E; apply Hm; auto).
  assert (E2 : (input_method (self s) =? "clipboard")%string = false)
    by (apply String.eqb_neq; intros E; apply Hm; auto).
  rewrite E1, E2.
  destruct (input_method (self s) =? "ydotool")%string.
  { intros H.
    exact (proj1 (respects_ydotool_object (self s) (fun _ => true) text _
                    (fun _ => eq_refl) env s r s' eq_refl H)). }
  destruct (input_method (self s) =? "dotool")%string.
  { intros H.
    exact (proj1 (respects_dotool_object (self s) (fun _ => true) text _
                    (fun _ => eq_refl) env s r s' eq_refl H)). }
  intros H. now inversion H.
Qed.

(** What construction returns, method by method. *)
Lemma construct_cases env w o w' :
  construct env w = (Ok o, w') ->
  (In (config_input_method env) emitter_methods
   /\ o = mkSim (config_input_method env) None (Some Controller)
   /\ w' = logged w [NewController])
  \/ (config_input_method env = "dotool" /\ on_path env "dotool" = true
      /\ o = mkSim "dotool" (Some (mkPopen (next_pid w) true)) None
      /\ w' = mkWorld (trace w ++ [Spawn "dotool" (next_pid w)]) (clipboard w)
                      (next_pid w :: children w) (S (next_pid w)))
  \/ (~ In (config_input_method env) emitter_methods
      /\ config_input_method env <> "dotool"
      /\ o = mkSim (config_input_method env) None None /\ w' = w).
Proof.
  destruct w as [tr cb ch np]. unfold construct, __init__, emitter_methods. exec.
  destruct (config_input_method env =? "pynput")%string eqn:E1;
    [|destruct (config_input_method env =? "clipboard")%string eqn:E2];
    cbn [orb]; unfold new_PynputController; exec.
  - apply String.eqb_eq in E1. intros H. inversion H; subst. left. rewrite E1.
    cbn [In]. auto.
  - apply String.eqb_eq in E2. intros H. inversion H; subst. left. rewrite E2.
    cbn [In]. auto.
  - apply String.eqb_neq in E1. apply String.eqb_neq in E2.
    destruct (config_input_method env =? "dotool")%string eqn:E3.
    + apply String.eqb_eq in E3.
      unfold _initialize_dotool, subprocess_Popen. exec.
      destruct (on_path env "dotool") eqn:Ep; exec; intros H; inversion H; subst.
      right. left. rewrite E3. auto.
    + apply String.eqb_neq in E3. exec. intros H. inversion H; subst.
      right. right. repeat split; auto. cbn [In]. intros [E|[E|[]]]; congruence.
Qed.

(** What holds of the object in every state of a session. *)
Lemma session_facts cleaned s :
  reachable cleaned s ->
  session_invariant cleaned s
  /\ handle_has_pipe (self s)
  /\ (keyboard (self s) <> None <-> In (input_method (self s)) emitter_methods).
Proof.
  induction 1 as [env w w' o Hch Hc | cleaned s s' env text r _ IH Hrun
                 | cleaned s s' env r _ IH Hrun].
  - split; [exact (construct_invariant env w o w' Hch Hc)|].
    destruct (construct_cases env w o w' Hc)
      as [(Hin & -> & _) | [(Hm & _ & -> & _) | (Hin & _ & -> & _)]];
      unfold handle_has_pipe; cbn [self dotool_process keyboard input_method stdin].
    + split; [exact Logic.I|]. split; [intros _; exact Hin | discriminate].
    + split; [reflexivity|]. unfold emitter_methods. cbn [In].
      split; [congruence | intros [E|[E|[]]]; discriminate E].
    + split; [exact Logic.I|]. split; [congruence | intros Hin'; now contradiction Hin].
  - destruct IH as (Hinv & Hpipe & Hkb).
    destruct (keeps_typewrite text env s r s' Hrun) as (Hm & Hp & _).
    split; [exact (typewrite_invariant cleaned text env s r s' Hinv Hrun)|].
    split; [unfold handle_has_pipe in *; now rewrite Hp|].
    rewrite Hm. split.
    + intros Hk'. apply Hkb. intros Hnone. apply Hk'.
      assert (Hout : ~ In (input_method (self s)) emitter_methods)
        by (intros Hin; apply Hkb in Hin; contradiction).
      now rewrite (typewrite_other_object text env s r s' Hout Hrun).
    + intros Hin. apply Hkb in Hin.
      exact (proj1 (respects_typewrite_emitter text env s r s' Hin Hrun)).
  - destruct IH as (Hinv & Hpipe & Hkb).
    split; [exact (cleanup_invariant cleaned env s r s' Hinv Hrun)|].
    destruct s as [o w]. cbn [self] in *.
    destruct (dotool_process o) as [p|] eqn:Hp.
    + assert (Hm : input_method o = "dotool").
      { destruct Hinv as (_ & _ & Hiff). cbn [self] in Hiff. apply Hiff.
        rewrite Hp. discriminate. }
      rewrite (cleanup_alive env o w p Hm Hp) in Hrun. inversion Hrun; subst.
      unfold handle_has_pipe. cbn [self dotool_process keyboard input_method].
      split; [exact Logic.I | exact Hkb].
    + rewrite (cleanup_without_process env (mkState o w) Hp) in Hrun.
      inversion Hrun; subst. cbn [self]. split; [exact Hpipe | exact Hkb].
Qed.

Lemma dotool_state_reachable : reachable false dotool_state.
Proof.
  apply (reach_construct (working_env "dotool" (Some (5 # 100))) empty_world); reflexivity.
Qed.

Lemma pynput_state_reachable : reachable false pynput_state.
Proof.
  apply (reach_construct (working_env "pynput" (Some (5 # 100))) empty_world); reflexivity.
Qed.

(** The external typists only run a command and print, or only write to
    the pipe and flush it; they never change the object or the clipboard. *)
Lemma respects_ydotool I P text d :
  (forall argv, P (Run argv) = true) ->
  (forall msg, P (Print msg) = true) ->
  respects I P (_typewrite_ydotool text d).
Proof.
  intros HR HP.
  unfold _typewrite_ydotool, run_command_or_exit_on_failure, subprocess_run, print, exit.
  repeat first [ apply respects_emit; first [apply HR | apply HP] | respects_step ].
Qed.

Lemma respects_dotool I P text d :
  (forall p data, P (PipeWrite p data) = true) ->
  (forall p, P (PipeFlush p) = true) ->
  respects I P (_typewrite_dotool text d).
Proof.
  intros HW HF. unfold _typewrite_dotool, stdin_write, stdin_flush.
  repeat first [ apply respects_emit; first [apply HW | apply HF] | respects_step ].
Qed.

(** X3. In every state of a session the simulator has a key-event emitter
    iff its method is pynput or clipboard: construction creates it for
    these two methods and for no other, and no later call creates or drops
    one. *)
Theorem session_emitter_iff_emitter_method (cleaned : bool) (s : state) :
  reachable cleaned s ->
  (keyboard (self s) <> None <-> In (input_method (self s)) emitter_methods).
Proof. intros H. exact (proj2 (proj2 (session_facts cleaned s H))). Qed.

Lemma session_emitter_iff_emitter_method_witness :
  (keyboard (self pynput_state) <> None <-> In "pynput" emitter_methods)
  /\ (keyboard (self dotool_state) <> None <-> In "dotool" emitter_methods).
Proof.
  split.
  - exact (session_emitter_iff_emitter_method false pynput_state pynput_state_reachable).
  - exact (session_emitter_iff_emitter_method false dotool_state dotool_state_reachable).
Defined.

(** X4. In a session the lazy creation of the emitter is never used: no
    [typewrite] call, on any method and whether it returns or raises, makes
    a [PynputController()] call. *)
Theorem session_typewrite_creates_no_emitter (cleaned : bool) (text : string)
    (env : environment) (s s' : state) (r : result unit) :
  reachable cleaned s ->
  typewrite text env s = (r, s') ->
  exists new,
    trace (outside s') = trace (outside s) ++ new
    /\ existsb is_NewController new = false.
Proof.
  intros Hreach Hrun. destruct (session_facts cleaned s Hreach) as (_ & _ & Hkb).
  assert (K : forall (I : InputSimulator -> option string -> Prop) (m : M unit),
             respects I (fun e => negb (is_NewController e)) m ->
             I (self s) (clipboard (outside s)) ->
             m env s = (r, s') ->
             exists new,
               trace (outside s') = trace (outside s) ++ new
               /\ existsb is_NewController new = false).
  { intros I m R HI H. destruct (R env s r s' HI H) as (_ & new & Ht & HP).
    exists new. split; [exact Ht | now apply forallb_negb_existsb]. }
  destruct (keyboard (self s)) as [k|] eqn:Ek.
  - apply (K (fun o _ => keyboard o <> None) (typewrite text)
             (respects_typewrite_emitter text)); [|exact Hrun].
    rewrite Ek. discriminate.
  - assert (Hout : ~ In (input_method (self s)) emitter_methods).
    { intros Hin. apply Hkb in Hin. now contradiction Hin. }
    unfold emitter_methods in Hout. cbn [In] in Hout.
    revert Hrun. rewrite typewrite_dispatch. cbv zeta.
    assert (E1 : (input_method (self s) =? "pynput")%string = false)
      by (apply String.eqb_neq; intros E; apply Hout; auto).
    assert (E2 : (input_method (self s) =? "clipboard")%string = false)
      by (apply String.eqb_neq; intros E; apply Hout; auto).
    rewrite E1, E2.
    destruct (input_method (self s) =? "ydotool")%string.
    { apply (K (fun _ _ => True)); [|exact Logic.I].
      apply respects_ydotool; reflexivity. }
    destruct (input_method (self s) =? "dotool")%string.
    { apply (K (fun _ _ => True)); [|exact Logic.I].
      apply respects_dotool; reflexivity. }
    intros H. inversion H; subst. exists []. now rewrite app_nil_r.
Qed.

Lemma session_typewrite_creates_no_emitter_witness :
  exists new,
    trace (outside (snd (typewrite "hi" (working_env "pynput" (Some (5 # 100)))
                           pynput_state)))
    = trace (outside pynput_state) ++ new
    /\ existsb is_NewController new = false.
Proof.
  exact (session_typewrite_creates_no_emitter false "hi"
           (working_env "pynput" (Some (5 # 100))) pynput_state _ _
           pynput_state_reachable (surjective_pairing _)).
Defined.

(** X5. In a session on the dotool method, before [cleanup] the simulator
    holds the handle of its one child process, with an open pipe: on every
    [typewrite] the assertion of the streaming typist passes, and the calls
    made are its two writes and its flush on that pipe.  After [cleanup]
    every [typewrite] raises [AssertionError] before any call on the pipe
    and does nothing else. *)
Theorem dotool_session_typewrite (cleaned : bool) (text : string) (env : environment)
    (s : state) :
  reachable cleaned s ->
  input_method (self s) = "dotool" ->
  (cleaned = false ->
   exists p,
     dotool_process (self s) = Some p
     /\ stdin p = true
     /\ children (outside s) = [pid p]
     /\ fst (typewrite text env s) <> Raise AssertionError
     /\ snd (typewrite text env s)
        = mkState (self s) (logged (outside s) (dotool_calls env p text)))
  /\ (cleaned = true -> typewrite text env s = (Raise AssertionError, s)).
Proof.
  intros Hreach Hm.
  destruct (session_facts cleaned s Hreach) as ((Hch & _ & Hiff) & Hpipe & _).
  unfold handle_children, handle_has_pipe in *. split.
  - intros Hc. destruct (dotool_process (self s)) as [p|] eqn:Hp.
    + exists p. split; [reflexivity|]. split; [exact Hpipe|]. split; [exact Hch|].
      rewrite typewrite_dispatch_dotool by exact Hm. destruct s as [o w].
      cbn [self outside] in *.
      rewrite (typewrite_dotool_run text _ env o w p Hp Hpipe).
      split; [discriminate | reflexivity].
    + exfalso. apply (proj2 Hiff); auto.
  - intros Hc. destruct (dotool_process (self s)) as [p|] eqn:Hp.
    + exfalso. destruct (proj1 Hiff) as [_ Hf]; [discriminate | congruence].
    + rewrite typewrite_dispatch_dotool by exact Hm. destruct s as [o w].
      now apply typewrite_dotool_without_process.
Qed.

Lemma dotool_session_typewrite_witness :
  snd (typewrite "hi" (working_env "dotool" (Some (5 # 100))) dotool_state)
  = mkState (self dotool_state)
            (mkWorld [Spawn "dotool" 1;
                      PipeWrite 1 ("typedelay 50.0" ++ nl);
                      PipeWrite 1 ("type hi" ++ nl);
                      PipeFlush 1] None [1%nat] 2).
Proof.
  destruct (dotool_session_typewrite false "hi" (working_env "dotool" (Some (5 # 100)))
              dotool_state dotool_state_reachable eq_refl) as [Hlive _].
  destruct (Hlive eq_refl) as (p & Hp & _ & _ & _ & Hrun).
  injection Hp as <-. exact Hrun.
Defined.

(** ** The one-shot typist and construction *)

Lemma ydotool_success_witness :
  typewrite "hi" (working_env "ydotool" (Some (5 # 100)))
            (mkState (mkSim "ydotool" None None) empty_world)
  = (Ok tt, mkState (mkSim "ydotool" None None)
                    (mkWorld [Run ["ydotool"; "type"; "--key-delay"; "50.0"; "--"; "hi"]]
                             None [] 1)).
Proof.
  exact (ydotool_success "hi" (working_env "ydotool" (Some (5 # 100)))
           (mkState (mkSim "ydotool" None None) empty_world) eq_refl eq_refl eq_refl).
Defined.

Lemma ydotool_nonzero_exit_witness :
  typewrite "hi" failing_ydotool_env (mkState (mkSim "ydotool" None None) empty_world)
  = (Raise (SystemExit 1),
     mkState (mkSim "ydotool" None None)
             (mkWorld [Run ["ydotool"; "type"; "--key-delay"; "50.0"; "--"; "hi"];
                       Print "Error running command: Command returned non-zero exit status."]
                      None [] 1)).
Proof.
  refine (ydotool_nonzero_exit "hi" failing_ydotool_env
            (mkState (mkSim "ydotool" None None) empty_world) eq_refl eq_refl _).
  discriminate.
Defined.

(** X8. What [InputSimulator()] does, by configured method.  For pynput
    and clipboard it creates the emitter, and nothing else.  For dotool it
    spawns the dotool process once, with an open pipe, and keeps its handle
    without creating an emitter; when the binary cannot be spawned the
    constructor raises [FileNotFoundError] and leaves the world as it was.
    For ydotool it does nothing at all: the binary is not looked for
    before the first [typewrite]. *)
Theorem construction_outcomes (env : environment) (w : world) :
  (In (config_input_method env) emitter_methods ->
   construct env w
   = (Ok (mkSim (config_input_method env) None (Some Controller)),
      logged w [NewController]))
  /\ (config_input_method env = "dotool" -> on_path env "dotool" = true ->
      construct env w
      = (Ok (mkSim "dotool" (Some (mkPopen (next_pid w) true)) None),
         mkWorld (trace w ++ [Spawn "dotool" (next_pid w)]) (clipboard w)
                 (next_pid w :: children w) (S (next_pid w))))
  /\ (config_input_method env = "dotool" -> on_path env "dotool" = false ->
      construct env w = (Raise (FileNotFoundError "dotool"), w))
  /\ (config_input_method env = "ydotool" ->
      construct env w = (Ok (mkSim "ydotool" None None), w)).
Proof.
  destruct w as [tr cb ch np]. unfold construct, __init__, emitter_methods.
  repeat split.
  - cbn [In]. intros [E|[E|[]]]; exec; rewrite <- E; exec; reflexivity.
  - intros E Hp. exec. rewrite E. exec. unfold _initialize_dotool, subprocess_Popen. exec.
    rewrite Hp. exec. reflexivity.
  - intros E Hp. exec. rewrite E. exec. unfold _initialize_dotool, subprocess_Popen. exec.
    rewrite Hp. exec. reflexivity.
  - intros E. exec. rewrite E. exec. reflexivity.
Qed.

Lemma construction_outcomes_witness :
  construct (working_env "clipboard" None) empty_world
  = (Ok (mkSim "clipboard" None (Some Controller)), mkWorld [NewController] None [] 1)
  /\ construct no_dotool_env empty_world = (Raise (FileNotFoundError "dotool"), empty_world).
Proof.
  split.
  - refine (proj1 (construction_outcomes (working_env "clipboard" None) empty_world) _).
    right. left. reflexivity.
  - exact (proj1 (proj2 (proj2 (construction_outcomes no_dotool_env empty_world)))
             eq_refl eq_refl).
Defined.

(** ** Edges of the clipboard and direct-key typists *)

(** X9. A refused restore is not fatal and is not retried: when the copy
    of the text is accepted, the clipboard held a different value [V], and
    the restore copy of [V] raises, a clipboard-backend [typewrite]
    still returns; it has attempted the copy of the text and one copy of
    [V], and the clipboard is left holding the text. *)
Theorem restore_failure_is_not_fatal (text V exc : string) (env : environment) (s : state) :
  input_method (self s) = "clipboard" ->
  pyperclip_imported env = true ->
  paste_error env = None ->
  clipboard (outside s) = Some V ->
  V <> text ->
  copy_error env text = None ->
  copy_error env V = Some exc ->
  exists new,
    typewrite text env s
    = (Ok tt, mkState (with_keyboard (self s)) (logged_clip (outside s) new (Some text)))
    /\ copies new = [text; V].
Proof.
  intros Hm Himp Hpaste Hclip HV Hcopy HcopyV.
  rewrite typewrite_dispatch_clipboard by exact Hm. destruct s as [o w].
  cbn [self outside] in *.
  destruct (typewrite_clipboard_paste_path
              text (or_zero (config_writing_key_press_delay env)) env o w Himp Hcopy)
    as (new & Hrun & Hq).
  apply String.eqb_neq in HV.
  assert (Hr : restore_copies (snapshot env w) text = [V]).
  { unfold snapshot, restore_copies. now rewrite Hpaste, Hclip, HV. }
  rewrite Hr in *. cbn [fold_left] in Hrun. unfold clipboard_after_copy in Hrun.
  rewrite HcopyV in Hrun.
  exists new. split; [exact Hrun|].
  rewrite <- copies_quiet, Hq. apply copies_paste_path.
Qed.

Lemma restore_failure_is_not_fatal_witness :
  exists new,
    typewrite "new" one_way_clipboard_env clipboard_state
    = (Ok tt, mkState (mkSim "clipboard" None (Some Controller))
                      (logged_clip (outside clipboard_state) new (Some "new")))
    /\ copies new = ["new"; "old"].
Proof.
  refine (restore_failure_is_not_fatal "new" "old" "clipboard is locked"
            one_way_clipboard_env clipboard_state
            eq_refl eq_refl eq_refl eq_refl _ eq_refl eq_refl).
  discriminate.
Defined.

Lemma or_zero_falsy value :
  value = None \/ (exists q, value = Some q /\ q == 0) -> or_zero value = 0.
Proof.
  intros [->|(q & -> & Hq)]; [reflexivity|]. unfold or_zero.
  apply Qeq_bool_iff in Hq. now rewrite Hq.
Qed.

Lemma or_zero_negative d : d < 0 -> or_zero (Some d) = d.
Proof.
  intros Hd. unfold or_zero. destruct (Qeq_bool d 0) eqn:E; [|reflexivity].
  apply Qeq_bool_iff in E. rewrite E in Hd. now apply Qlt_irrefl in Hd.
Qed.

(** X10. The delay defaults to zero: when the configuration has no
    [writing_key_press_delay], or has a zero there, [typewrite] on the
    pynput backend returns after typing every character of the text with
    a sleep of 0 after each. *)
Theorem absent_delay_is_zero (text : string) (env : environment) (s : state) :
  input_method (self s) = "pynput" ->
  config_writing_key_press_delay env = None
  \/ (exists q, config_writing_key_press_delay env = Some q /\ q == 0) ->
  typewrite text env s
  = (Ok tt, mkState (with_keyboard (self s))
                    (logged (outside s) (controller_calls (self s) ++ keystrokes text 0))).
Proof.
  intros Hm Hd. rewrite typewrite_dispatch_pynput by exact Hm.
  rewrite (or_zero_falsy _ Hd). destruct s as [o w].
  apply typewrite_pynput_run. discriminate.
Qed.

Lemma absent_delay_is_zero_witness :
  typewrite "hi" (working_env "pynput" None) pynput_state
  = (Ok tt, mkState (mkSim "pynput" None (Some Controller))
                    (mkWorld [NewController;
                              Press (KeyChar "h"); Release (KeyChar "h"); Sleep 0;
                              Press (KeyChar "i"); Release (KeyChar "i"); Sleep 0]
                             None [] 1)).
Proof.
  refine (absent_delay_is_zero "hi" (working_env "pynput" None) pynput_state eq_refl _).
  left. reflexivity.
Defined.

(** X11. With a negative configured delay the pynput backend types at
    most one character: an empty text returns without a key event or a
    sleep, and a non-empty text has its first character pressed and
    released before the sleep raises [ValueError]; the rest of the text is
    not typed. *)
Theorem negative_delay_stops_after_first_character (text : string) (d : Q)
    (env : environment) (s : state) :
  input_method (self s) = "pynput" ->
  config_writing_key_press_delay env = Some d ->
  d < 0 ->
  typewrite text env s
  = match text with
    | EmptyString =>
        (Ok tt, mkState (with_keyboard (self s))
                        (logged (outside s) (controller_calls (self s))))
    | String c _ =>
        (Raise ValueError,
         mkState (with_keyboard (self s))
                 (logged (outside s)
                         (controller_calls (self s)
                          ++ [Press (KeyChar c); Release (KeyChar c)])))
    end.
Proof.
  intros Hm Hc Hd. rewrite typewrite_dispatch_pynput by exact Hm.
  rewrite Hc, (or_zero_negative d Hd). destruct s as [o w]. cbn [self outside].
  destruct text as [|c rest].
  - unfold _typewrite_pynput.
    rewrite (bind_ok _ _ _ _ _ _ (ensure_keyboard_run env o w)). reflexivity.
  - now apply direct_key_negative_delay.
Qed.

Lemma negative_delay_stops_after_first_character_witness :
  typewrite "hi" (working_env "pynput" (Some (-1 # 100))) pynput_state
  = (Raise ValueError,
     mkState (mkSim "pynput" None (Some Controller))
             (mkWorld [NewController; Press (KeyChar "h"); Release (KeyChar "h")]
                      None [] 1)).
Proof.
  exact (negative_delay_stops_after_first_character "hi" (-1 # 100)
           (working_env "pynput" (Some (-1 # 100))) pynput_state
           eq_refl eq_refl eq_refl).
Defined.

Lemma pressed_chars_app evs evs' :
  pressed_chars (evs ++ evs') = (pressed_chars evs ++ pressed_chars evs')%string.
Proof.
  induction evs as [|e evs IH]; [reflexivity|].
  destruct e as [| | |k| | | | | | | | |]; cbn [app pressed_chars]; try exact IH.
  destruct k; cbn [String.append]; now rewrite ?IH.
Qed.

Lemma pressed_chars_quiet evs : pressed_chars (quiet evs) = pressed_chars evs.
Proof.
  induction evs as [|e evs IH]; [reflexivity|]. unfold quiet in *.
  destruct e as [| | |k| | | | | | | | |];
    cbn [filter is_console_print negb pressed_chars]; try exact IH.
  destruct k; now rewrite ?IH.
Qed.

Lemma pressed_chars_controller_calls o : pressed_chars (controller_calls o) = "".
Proof. unfold controller_calls. now destruct (keyboard o). Qed.

(** X12. The pynput backend delivers the text: with a non-negative
    configured delay [typewrite(T)] returns, and the characters it has
    pressed, read in order, spell exactly [T]. *)
Theorem direct_key_delivers_text (text : string) (env : environment) (s : state) :
  input_method (self s) = "pynput" ->
  0 <= or_zero (config_writing_key_press_delay env) ->
  exists new,
    typewrite text env s
    = (Ok tt, mkState (with_keyboard (self s)) (logged (outside s) new))
    /\ pressed_chars new = text.
Proof.
  intros Hm Hd. rewrite typewrite_dispatch_pynput by exact Hm. destruct s as [o w].
  eexists. split; [now apply typewrite_pynput_run|].
  cbn [self]. now rewrite pressed_chars_app, pressed_chars_controller_calls, keystrokes_pressed.
Qed.

Lemma direct_key_delivers_text_witness :
  exists new,
    typewrite "hi" (working_env "pynput" (Some (5 # 100))) pynput_state
    = (Ok tt, mkState (mkSim "pynput" None (Some Controller))
                      (logged (outside pynput_state) new))
    /\ pressed_chars new = "hi".
Proof.
  refine (direct_key_delivers_text "hi" (working_env "pynput" (Some (5 # 100)))
            pynput_state eq_refl _).
  discriminate.
Defined.

(** X13. The fallback of the clipboard backend delivers the text: when
    pyperclip is missing, or the copy of the text raises, and the
    configured delay is non-negative, [typewrite(T)] returns, and the
    characters it has pressed, read in order, spell exactly [T]. *)
Theorem clipboard_fallback_delivers_text (text : string) (env : environment) (s : state) :
  input_method (self s) = "clipboard" ->
  pyperclip_imported env = false \/ copy_error env text <> None ->
  0 <= or_zero (config_writing_key_press_delay env) ->
  exists new,
    typewrite text env s
    = (Ok tt, mkState (with_keyboard (self s)) (logged (outside s) new))
    /\ pressed_chars new = text.
Proof.
  intros Hm Hfall Hd. rewrite typewrite_dispatch_clipboard by exact Hm.
  destruct s as [o w]. cbn [self outside].
  assert (K : exists pre,
             pressed_chars (quiet pre) = ""
             /\ _typewrite_clipboard text (or_zero (config_writing_key_press_delay env))
                                     env (mkState o w)
                = _typewrite_pynput text (or_zero (config_writing_key_press_delay env))
                                    env (mkState (with_keyboard o) (logged w pre))).
  { destruct (pyperclip_imported env) eqn:Himp.
    - destruct Hfall as [Hf|Hf]; [discriminate Hf|].
      destruct (copy_error env text) as [exc|] eqn:Hcopy; [|now contradiction Hf].
      destruct (typewrite_clipboard_copy_failure text
                  (or_zero (config_writing_key_press_delay env)) env o w exc Himp Hcopy)
        as (pre & Hq & Hrun).
      exists pre. split; [|exact Hrun].
      rewrite Hq, pressed_chars_app, pressed_chars_controller_calls. reflexivity.
    - destruct (typewrite_clipboard_no_pyperclip text
                  (or_zero (config_writing_key_press_delay env)) env o w Himp)
        as (pre & Hq & Hrun).
      exists pre. split; [|exact Hrun].
      now rewrite Hq, pressed_chars_controller_calls. }
  destruct K as (pre & Hpre & Hrun). rewrite Hrun.
  rewrite typewrite_pynput_run by exact Hd. rewrite logged_logged.
  eexists. split; [reflexivity|].
  rewrite !pressed_chars_app, <- pressed_chars_quiet, Hpre, keystrokes_pressed.
  unfold with_keyboard, controller_calls. reflexivity.
Qed.

Lemma clipboard_fallback_delivers_text_witness :
  exists new,
    typewrite "new" read_only_clipboard_env clipboard_state
    = (Ok tt, mkState (mkSim "clipboard" None (Some Controller))
                      (logged (outside clipboard_state) new))
    /\ pressed_chars new = "new".
Proof.
  refine (clipboard_fallback_delivers_text "new" read_only_clipboard_env clipboard_state
            eq_refl _ _).
  - right. discriminate.
  - discriminate.
Defined.

(** ** Calls in sequence *)

Lemma keystrokes_app (a b : string) d :
  keystrokes (a ++ b) d = keystrokes a d ++ keystrokes b d.
Proof.
  induction a as [|c a IH]; [reflexivity|].
  cbn [String.append keystrokes app]. now rewrite IH.
Qed.

(** X14. On the pynput backend typing a text in two pieces is typing it
    whole: with a non-negative configured delay, [typewrite(a)] followed by
    [typewrite(b)] returns and leaves the simulator and the world exactly
    as [typewrite(a + b)] does. *)
Theorem direct_key_typing_composes (a b : string) (env : environment) (s : state) :
  input_method (self s) = "pynput" ->
  0 <= or_zero (config_writing_key_press_delay env) ->
  typewrite (a ++ b) env s = (Ok tt, snd (typewrite b env (snd (typewrite a env s))))
  /\ fst (typewrite a env s) = Ok tt
  /\ fst (typewrite b env (snd (typewrite a env s))) = Ok tt.
Proof.
  intros Hm Hd. destruct s as [o w]. cbn [self] in Hm.
  assert (H1 : forall t o' w', input_method o' = "pynput" ->
               typewrite t env (mkState o' w')
               = (Ok tt, mkState (with_keyboard o')
                                 (logged w' (controller_calls o' ++ keystrokes t
                                    (or_zero (config_writing_key_press_delay env)))))).
  { intros t o' w' Hm'. rewrite typewrite_dispatch_pynput by exact Hm'.
    now apply typewrite_pynput_run. }
  rewrite (H1 a o w Hm). cbn [fst snd].
  rewrite (H1 b (with_keyboard o) _ Hm). cbn [fst snd].
  rewrite (H1 (a ++ b)%string o w Hm).
  repeat split. rewrite logged_logged, keystrokes_app.
  unfold with_keyboard, controller_calls.
  cbn [input_method dotool_process keyboard app]. now rewrite <- app_assoc.
Qed.

Lemma direct_key_typing_composes_witness :
  typewrite ("h" ++ "i") (working_env "pynput" (Some (5 # 100))) pynput_state
  = (Ok tt,
     snd (typewrite "i" (working_env "pynput" (Some (5 # 100)))
            (snd (typewrite "h" (working_env "pynput" (Some (5 # 100))) pynput_state)))).
Proof.
  refine (proj1 (direct_key_typing_composes "h" "i"
                   (working_env "pynput" (Some (5 # 100))) pynput_state eq_refl _)).
  discriminate.
Defined.

(** X15. The delay is read at every call.  Of two [typewrite] calls on a
    dotool simulator that holds its process, each made with the
    configuration as it is at that call, the first makes its two writes
    and its flush with the delay of the first configuration, and the
    second then makes its own two writes and flush with the delay of the
    second configuration. *)
Theorem dotool_calls_in_sequence (t1 t2 : string) (env1 env2 : environment)
    (s : state) (p : Popen) :
  input_method (self s) = "dotool" ->
  dotool_process (self s) = Some p ->
  stdin p = true ->
  snd (typewrite t1 env1 s)
  = mkState (self s) (logged (outside s) (dotool_calls env1 p t1))
  /\ snd (typewrite t2 env2 (snd (typewrite t1 env1 s)))
     = mkState (self s)
               (logged (outside s) (dotool_calls env1 p t1 ++ dotool_calls env2 p t2)).
Proof.
  intros Hm Hp Hs. destruct s as [o w]. cbn [self outside] in *.
  assert (H1 : typewrite t1 env1 (mkState o w)
               = (Ok tt, mkState o (logged w (dotool_calls env1 p t1)))).
  { rewrite typewrite_dispatch_dotool by exact Hm. now apply typewrite_dotool_run. }
  rewrite H1. cbn [snd]. split; [reflexivity|].
  rewrite typewrite_dispatch_dotool by exact Hm.
  rewrite (typewrite_dotool_run t2 _ env2 o _ p Hp Hs). cbn [snd].
  now rewrite logged_logged.
Qed.

Lemma dotool_calls_in_sequence_witness :
  snd (typewrite "b" (working_env "dotool" None)
         (snd (typewrite "a" (working_env "dotool" (Some (5 # 100))) dotool_state)))
  = mkState (self dotool_state)
            (mkWorld [Spawn "dotool" 1;
                      PipeWrite 1 ("typedelay 50.0" ++ nl);
                      PipeWrite 1 ("type a" ++ nl);
                      PipeFlush 1;
                      PipeWrite 1 ("typedelay 0.0" ++ nl);
                      PipeWrite 1 ("type b" ++ nl);
                      PipeFlush 1] None [1%nat] 2).
Proof.
  exact (proj2 (dotool_calls_in_sequence "a" "b" (working_env "dotool" (Some (5 # 100)))
                  (working_env "dotool" None) dotool_state (mkPopen 1 true)
                  eq_refl eq_refl eq_refl)).
Defined.
